(** * SAP AI provider: credential resolution and request-context construction

    A shallow embedding of [src/sap-ai-provider.ts] and the properties of its
    three entry points: [createSAPAIProvider] (asynchronous, may run the
    OAuth2 client-credentials exchange), [createSAPAIProviderSync] (token
    already known) and [createDefaultSAPAI] (the lazy default instance).

    Conventions of the embedding.
    - An optional property ([x?: T]) is an [option]; [None] is [undefined].
    - Values whose static type the code never checks at run time (the result
      of [JSON.parse], the body of the token response) are dynamic
      [JSValue]s; property reads and string conversions on them follow
      ECMAScript and may throw.
    - [throw] and rejected promises are the [Throw] case of [Result];
      [await] is sequencing in the monad [M], which also records the
      interactions with the outside world (network calls, environment reads)
      in the order they happen.
    - A closure is the record of the variables it captures together with a
      function that runs its body. *)

From Stdlib Require Import Ascii String NArith.
From stdpp Require Import base option strings pretty list gmap fin_maps.

Local Open Scope string_scope.

(** ** Strings *)

(** The line feed that the template literal of [getOAuthToken] contains. *)
Definition LF : string := String "010"%char EmptyString.

(** [s ? true : false] for a string: only the empty string is falsy. *)
Definition string_truthy (s : string) : bool :=
  match s with
  | EmptyString => false
  | String _ _ => true
  end.

(** ** Exceptions and results *)

Inductive Exception : Type :=
| Error (message : string)
    (** [new Error(message)], the only exception this module constructs *)
| TypeError
    (** raised by the engine: property read on [undefined] or [null], or a
        value without a primitive conversion *)
| SyntaxError
    (** raised by [JSON.parse] *)
| LoadAPIKeyError (message : string)
    (** raised by [loadApiKey] *)
| Foreign (name message : string).
    (** whatever a transport or an encoder of the host rejects with *)

Inductive Result (A : Type) : Type :=
| Ok (value : A)
| Throw (e : Exception).
Arguments Ok {A} value.
Arguments Throw {A} e.

Definition rbind {A B} (r : Result A) (k : A -> Result B) : Result B :=
  match r with
  | Ok a => k a
  | Throw e => Throw e
  end.

Declare Scope js_scope.
Delimit Scope js_scope with js.
Notation "'try!' x <- r ; k" := (rbind r (fun x => k))
  (at level 10, x name, r at level 100, k at level 200) : js_scope.
Local Open Scope js_scope.

(** ** Dynamic values *)

#[warnings="-register-all"]
Inductive JSValue : Type :=
| VUndefined
| VNull
| VBool (b : bool)
| VNumber (text : string)
    (** a number, carried as the text [String(n)] gives for it *)
| VString (s : string)
| VArray (items : list JSValue)
| VObject (props : list (string * JSValue)).
    (** own properties; the first binding of a key is the property *)

Fixpoint own_property (props : list (string * JSValue)) (key : string) : option JSValue :=
  match props with
  | [] => None
  | (k, v) :: rest => if String.eqb k key then Some v else own_property rest key
  end.

(** ToBoolean. A number is falsy when it is [0], [-0] or [NaN]. *)
Definition truthy (v : JSValue) : bool :=
  match v with
  | VUndefined | VNull => false
  | VBool b => b
  | VNumber t => negb (String.eqb t "0" || String.eqb t "NaN")
  | VString s => string_truthy s
  | VArray _ | VObject _ => true
  end.

(** [v.key], for the keys this module reads ([serviceurls], [AI_API_URL],
    [url], [clientid], [clientsecret], [access_token]): none of them is
    defined on a built-in prototype, so only an own property of an object
    can answer. *)
Definition get (v : JSValue) (key : string) : Result JSValue :=
  match v with
  | VUndefined | VNull => Throw TypeError
  | VObject props => Ok (default VUndefined (own_property props key))
  | VBool _ | VNumber _ | VString _ | VArray _ => Ok VUndefined
  end.

(** ToString, as a template literal applies it. An array is joined with
    commas, [undefined] and [null] elements giving the empty string. A plain
    object prints as [[object Object]] through [Object.prototype.toString],
    unless an own (data) property shadows [toString]: then no primitive
    conversion is left and the engine throws. *)
Fixpoint ToString (v : JSValue) : Result string :=
  match v with
  | VUndefined => Ok "undefined"
  | VNull => Ok "null"
  | VBool true => Ok "true"
  | VBool false => Ok "false"
  | VNumber t => Ok t
  | VString s => Ok s
  | VArray items =>
      let element (x : JSValue) : Result string :=
        match x with
        | VUndefined | VNull => Ok EmptyString
        | _ => ToString x
        end in
      (fix join (l : list JSValue) : Result string :=
         match l with
         | [] => Ok EmptyString
         | [x] => element x
         | x :: rest =>
             try! s <- element x;
             try! r <- join rest;
             Ok (s +:+ "," +:+ r)
         end) items
  | VObject props =>
      match own_property props "toString" with
      | Some _ => Throw TypeError
      | None => Ok "[object Object]"
      end
  end.

(** [a ?? b] on an optional value. *)
Definition nullish {A} (a : option A) (b : A) : A := default b a.

(** ** The host: transport, environment, encoders *)

(** The arguments of one [fetch(url, init)] call. *)
Record Request : Type := {
  req_url : string;
  req_method : string;
  req_headers : list (string * string);
  req_body : string
}.

(** What the code reads of a [Response]: [text()] and [json()] are the
    results their promises settle with. *)
Record Response : Type := {
  ok : bool;
  status : N;
  statusText : string;
  text : Result string;
  json : Result JSValue
}.

(** [typeof fetch]: a call resolves to a response or rejects. *)
Definition FetchFn : Type := Request -> Result Response.

Record Runtime : Type := {
  JSON_parse : string -> option JSValue;
    (** [JSON.parse]; [None] when it throws *)
  process_env : string -> option string;
    (** [process.env]: the host is one that has it, as the default instance
        reads it without a test *)
  global_fetch : FetchFn;
    (** the global [fetch] *)
  Buffer_base64 : option (string -> string);
    (** [Buffer.from(s).toString("base64")]; [None] when [Buffer] is not
        defined *)
  btoa : string -> Result string
    (** the browser encoder *)
}.

(** What the outside world sees of a run. *)
Inductive Event : Type :=
| NetworkCall (req : Request)
| EnvRead (name : string).

(** A computation: its result and the events it caused, oldest first. *)
Definition M (A : Type) : Type := Result A * list Event.

Definition ret {A} (a : A) : M A := (Ok a, []).
Definition throw {A} (e : Exception) : M A := (Throw e, []).
Definition lift {A} (r : Result A) : M A := (r, []).

Definition bind {A B} (m : M A) (k : A -> M B) : M B :=
  match m with
  | (Ok a, t) => let (r, t') := k a in (r, (t ++ t')%list)
  | (Throw e, t) => (Throw e, t)
  end.

Notation "'let!' x <- m ; k" := (bind m (fun x => k))
  (at level 10, x name, m at level 100, k at level 200) : js_scope.

Definition outcome {A} (m : M A) : Result A := fst m.
Definition trace {A} (m : M A) : list Event := snd m.

(** [await fetchFn(url, init)]. *)
Definition call_fetch (fetchFn : FetchFn) (req : Request) : M Response :=
  (fetchFn req, [NetworkCall req]).

(** ** Helpers imported from [@ai-sdk/provider-utils] *)

(** [url?.replace(/\/$/, '')]: drops one final slash. *)
Fixpoint strip_final_slash (s : string) : string :=
  match s with
  | EmptyString => EmptyString
  | String c rest =>
      match rest with
      | EmptyString => if Ascii.eqb c "/" then EmptyString else s
      | String _ _ => String c (strip_final_slash rest)
      end
  end.

Definition withoutTrailingSlash (url : option string) : option string :=
  strip_final_slash <$> url.

(** [loadApiKey({ apiKey: undefined, environmentVariableName, description })]:
    the value of the environment variable, or a [LoadAPIKeyError] when the
    variable is not set. *)
Definition loadApiKey (rt : Runtime) (environmentVariableName description : string) : M string :=
  (match process_env rt environmentVariableName with
   | Some apiKey => Ok apiKey
   | None =>
       Throw (LoadAPIKeyError
                (description +:+ " API key is missing. Pass it using the 'apiKey' parameter or the "
                 +:+ environmentVariableName +:+ " environment variable."))
   end,
   [EnvRead environmentVariableName]).

(** ** Configuration data *)

Record ServiceUrls : Type := {
  AI_API_URL : string
}.

(** [interface SAPAIServiceKey]. *)
Record SAPAIServiceKey : Type := {
  serviceurls : ServiceUrls;
  clientid : string;
  clientsecret : string;
  url : string;
  identityzone : option string;
  identityzoneid : option string;
  appname : option string;
  credential_type : option string
}.

Definition optional_property (key : string) (v : option string) : list (string * JSValue) :=
  match v with
  | Some s => [(key, VString s)]
  | None => []
  end.

(** A typed service key as the object it is at run time. *)
Definition service_key_object (k : SAPAIServiceKey) : JSValue :=
  VObject
    ([ ("serviceurls", VObject [("AI_API_URL", VString (AI_API_URL (serviceurls k)))]);
       ("clientid", VString (clientid k));
       ("clientsecret", VString (clientsecret k));
       ("url", VString (url k)) ]
     ++ optional_property "identityzone" (identityzone k)
     ++ optional_property "identityzoneid" (identityzoneid k)
     ++ optional_property "appname" (appname k)
     ++ optional_property "credential-type" (credential_type k))%list.

(** Modelled from the spec: the type [SAPAISettings] of
    [./sap-ai-chat-settings], which is not part of the sources at hand. The
    specification describes call settings as a mapping of top-level knobs
    with a sub-mapping [modelParams]; [fields] holds every top-level key
    other than [modelParams]. *)
Record SAPAISettings : Type := {
  fields : gmap string JSValue;
  modelParams : option (gmap string JSValue)
}.

(** The object literal [{}]. *)
Definition empty_settings : SAPAISettings :=
  {| fields := ∅; modelParams := None |}.

(** [interface SAPAIProviderSettings]. *)
Record SAPAIProviderSettings : Type := {
  serviceKey : option (string + SAPAIServiceKey);
  token : option string;
  deploymentId : option string;
  resourceGroup : option string;
  baseURL : option string;
  completionPath : option string;
  headers : option (gmap string string);
  fetch : option FetchFn;
  defaultSettings : option SAPAISettings
}.

(** [createSAPAIProvider()] defaults its argument to [{}]. *)
Definition no_options : SAPAIProviderSettings :=
  {| serviceKey := None; token := None; deploymentId := None;
     resourceGroup := None; baseURL := None; completionPath := None;
     headers := None; fetch := None; defaultSettings := None |}.

(** ** The model handle *)

(** The arrow function [() => ({ Authorization: ..., ...options.headers })]:
    the variables it closes over. Its body is [call_headers]. *)
Record HeaderFactory : Type := {
  hf_authToken : JSValue;
  hf_resourceGroup : string;
  hf_headers : option (gmap string string)
}.

(** The third constructor argument of the chat model. *)
Record ModelConfig : Type := {
  provider : string;
  cfg_baseURL : string;
  cfg_headers : HeaderFactory;
  cfg_fetch : option FetchFn
}.

(** Modelled from the spec: the class [SAPAIChatLanguageModel] of
    [./sap-ai-chat-language-model], which is not part of the sources at
    hand. The specification treats it as a collaborator consumed only as a
    constructor accepting [(modelId, settings, requestContext)]; an instance
    is the record of what it was constructed with. *)
Record SAPAIChatLanguageModel : Type := {
  modelId : string;
  settings : SAPAISettings;
  config : ModelConfig
}.

(** One invocation of the header-producing function. Spread properties come
    last, so a custom header replaces a generated one of the same name. *)
Definition call_headers (h : HeaderFactory) : Result (gmap string string) :=
  try! bearer <- ToString (hf_authToken h);
  Ok (nullish (hf_headers h) ∅
      ∪ <["ai-resource-group" := hf_resourceGroup h]>
          (<["Content-Type" := "application/json"]>
             (<["Authorization" := "Bearer " +:+ bearer]> ∅))).

(** ** Settings merge *)

(** [{ ...defaults, ...settings, modelParams: { ...(defaults?.modelParams ?? {}),
       ...(settings.modelParams ?? {}) } }]. *)
Definition mergeSettings (defaults : option SAPAISettings) (s : SAPAISettings) : SAPAISettings :=
  {| fields := fields s ∪ from_option fields ∅ defaults;
     modelParams :=
       Some (nullish (modelParams s) ∅
             ∪ nullish (defaults ≫= modelParams) ∅) |}.

(** ** The model factory *)

(** The variables [createModel] and [provider] close over once provider
    creation has run. *)
Record Closure : Type := {
  cl_defaultSettings : option SAPAISettings;
  cl_completionPath : option string;
  cl_headers : option (gmap string string);
  cl_fetch : option FetchFn;
  cl_baseURL : string;
  cl_authToken : JSValue;
  cl_deploymentId : string;
  cl_resourceGroup : string
}.

(** [const createModel = (modelId, settings = {}) => ...], the same text in
    [createSAPAIProvider] and [createSAPAIProviderSync]. *)
Definition createModel (c : Closure) (id : string) (s : option SAPAISettings)
  : SAPAIChatLanguageModel :=
  let s := nullish s empty_settings in
  let mergedSettings := mergeSettings (cl_defaultSettings c) s in
  {| modelId := id;
     settings := mergedSettings;
     config :=
       {| provider := "sap-ai";
          cfg_baseURL :=
            match cl_completionPath c with
            | Some completionPath => cl_baseURL c +:+ completionPath
            | None =>
                cl_baseURL c +:+ "/inference/deployments/" +:+ cl_deploymentId c
                +:+ "/v2/completion"
            end;
          cfg_headers :=
            {| hf_authToken := cl_authToken c;
               hf_resourceGroup := cl_resourceGroup c;
               hf_headers := cl_headers c |};
          cfg_fetch := cl_fetch c |} |}.

(** ** The OAuth2 client-credentials exchange *)

(** The request [getOAuthToken] sends. Substitutions of a template literal
    are read and converted left to right. *)
Definition oauth_request (rt : Runtime) (key : JSValue) : Result Request :=
  try! u <- get key "url";
  try! u <- ToString u;
  let tokenUrl := u +:+ "/oauth/token" in
  try! id <- get key "clientid";
  try! id <- ToString id;
  try! secret <- get key "clientsecret";
  try! secret <- ToString secret;
  try! credentials <-
    match Buffer_base64 rt with
    | Some to_base64 => Ok (to_base64 (id +:+ ":" +:+ secret))
    | None => btoa rt (id +:+ ":" +:+ secret)
    end;
  Ok {| req_url := tokenUrl;
        req_method := "POST";
        req_headers :=
          [ ("Content-Type", "application/x-www-form-urlencoded");
            ("Authorization", "Basic " +:+ credentials) ];
        req_body := "grant_type=client_credentials" |}.

(** The message of the error a refused exchange is reported with. *)
Definition oauth_failure_message (r : Response) (errorText : string) : string :=
  "Failed to get OAuth access token: " +:+ pretty (status r) +:+ " " +:+ statusText r
  +:+ LF +:+ errorText.

Definition getOAuthToken (rt : Runtime) (key : JSValue) (customFetch : option FetchFn)
  : M JSValue :=
  let fetchFn := nullish customFetch (global_fetch rt) in
  let! req <- lift (oauth_request rt key);
  let! response <- call_fetch fetchFn req;
  if negb (ok response) then
    let! errorText <- lift (text response);
    throw (Error (oauth_failure_message response errorText))
  else
    let! tokenData <- lift (json response);
    lift (get tokenData "access_token").

(** ** Provider creation *)

(** [createSAPAIProvider] and [createSAPAIProviderSync] return a function
    that closes over the resolved context; [createDefaultSAPAI] returns one
    that closes over nothing and resolves its token at each call. *)
Inductive SAPAIProvider : Type :=
| ConfiguredProvider (c : Closure)
| DefaultProvider.

Definition default_baseURL : string :=
  "https://api.ai.prod.eu-central-1.aws.ml.hana.ondemand.com/v2".

Definition default_deploymentId : string := "d65d81e7c077e583".

(** "Parse service key if provided": the value of [parsedServiceKey],
    [VUndefined] while it is unassigned. *)
Definition parse_service_key (rt : Runtime) (options : SAPAIProviderSettings)
  : Result JSValue :=
  match serviceKey options with
  | Some (inl s) =>
      if string_truthy s then
        match JSON_parse rt s with
        | Some v => Ok v
        | None => Throw (Error "Invalid service key JSON format")
        end
      else Ok VUndefined
  | Some (inr k) => Ok (service_key_object k)
  | None => Ok VUndefined
  end.

(** "Determine baseURL". The right operand of [??] is only evaluated when
    the left one is [undefined]. *)
Definition determine_baseURL (options : SAPAIProviderSettings) (parsedServiceKey : JSValue)
  : Result string :=
  if truthy parsedServiceKey then
    match withoutTrailingSlash (baseURL options) with
    | Some u => Ok u
    | None =>
        try! urls <- get parsedServiceKey "serviceurls";
        try! api <- get urls "AI_API_URL";
        try! api <- ToString api;
        Ok (api +:+ "/v2")
    end
  else
    Ok (nullish (withoutTrailingSlash (baseURL options)) default_baseURL).

(** [if (options.token)]. *)
Definition token_truthy (options : SAPAIProviderSettings) : bool :=
  from_option string_truthy false (token options).

(** "Determine authentication". *)
Definition determine_authentication (rt : Runtime) (options : SAPAIProviderSettings)
  (parsedServiceKey : JSValue) : M JSValue :=
  if token_truthy options then
    ret (VString (nullish (token options) EmptyString))
  else if truthy parsedServiceKey then
    getOAuthToken rt parsedServiceKey (fetch options)
  else
    let! apiKey <- loadApiKey rt "SAP_AI_TOKEN" "SAP AI Core";
    ret (VString apiKey).

Definition createSAPAIProvider (rt : Runtime) (options : SAPAIProviderSettings)
  : M SAPAIProvider :=
  let! parsedServiceKey <- lift (parse_service_key rt options);
  let! baseURL <- lift (determine_baseURL options parsedServiceKey);
  let! authToken <- determine_authentication rt options parsedServiceKey;
  let deploymentId := nullish (deploymentId options) default_deploymentId in
  let resourceGroup := nullish (resourceGroup options) "default" in
  ret (ConfiguredProvider
         {| cl_defaultSettings := defaultSettings options;
            cl_completionPath := completionPath options;
            cl_headers := headers options;
            cl_fetch := fetch options;
            cl_baseURL := baseURL;
            cl_authToken := authToken;
            cl_deploymentId := deploymentId;
            cl_resourceGroup := resourceGroup |}).

(** The variables the functions of [createSAPAIProviderSync] close over. The
    argument type is [Omit<SAPAIProviderSettings, "serviceKey"> &
    { token: string }]: the mandatory token is the first parameter, and the
    [serviceKey] and [token] fields of the record are not read. *)
Definition sync_closure (token : string) (options : SAPAIProviderSettings) : Closure :=
  let baseURL := nullish (withoutTrailingSlash (baseURL options)) default_baseURL in
  let deploymentId := nullish (deploymentId options) default_deploymentId in
  let resourceGroup := nullish (resourceGroup options) "default" in
  {| cl_defaultSettings := defaultSettings options;
     cl_completionPath := completionPath options;
     cl_headers := headers options;
     cl_fetch := fetch options;
     cl_baseURL := baseURL;
     cl_authToken := VString token;
     cl_deploymentId := deploymentId;
     cl_resourceGroup := resourceGroup |}.

Definition createSAPAIProviderSync (token : string) (options : SAPAIProviderSettings)
  : SAPAIProvider :=
  ConfiguredProvider (sync_closure token options).

(** ** The provider as a function *)

Definition new_keyword_message : string :=
  "The SAP AI provider function cannot be called with the new keyword.".

(** [const provider = function (modelId, settings) { if (new.target) ... }]
    of the two creation functions. [new_target] tells whether the call is a
    [new] expression. *)
Definition provider_function (new_target : bool) (c : Closure) (id : string)
  (s : option SAPAISettings) : Result SAPAIChatLanguageModel :=
  if new_target then Throw (Error new_keyword_message)
  else Ok (createModel c id s).

Definition DQUOTE : string := String "034"%char EmptyString.

Definition default_instance_message : string :=
  "SAP_AI_TOKEN environment variable is required for default instance. "
  +:+ "Either set SAP_AI_TOKEN or use createSAPAIProvider({ serviceKey: "
  +:+ DQUOTE +:+ "..." +:+ DQUOTE +:+ " }) instead.".

(** [createModel] of [createDefaultSAPAI]: the token is read from the
    environment at each call, and the handle comes from a synchronous
    provider, [createSAPAIProviderSync({ token })], called as a plain
    function. *)
Definition default_createModel (rt : Runtime) (id : string) (s : option SAPAISettings)
  : M SAPAIChatLanguageModel :=
  let! token <- (Ok (process_env rt "SAP_AI_TOKEN"), [EnvRead "SAP_AI_TOKEN"]);
  if from_option string_truthy false token then
    lift (provider_function false (sync_closure (nullish token EmptyString) no_options) id s)
  else throw (Error default_instance_message).

(** [createDefaultSAPAI()], and [sapai], the instance the module exports. *)
Definition createDefaultSAPAI : M SAPAIProvider := ret DefaultProvider.

(** [p(modelId, settings)], or [new p(modelId, settings)] when [new_target]
    is set. The function of the default instance does not look at
    [new.target]; it returns an object, which is then the value of the [new]
    expression. *)
Definition call (new_target : bool) (rt : Runtime) (p : SAPAIProvider) (id : string)
  (s : option SAPAISettings) : M SAPAIChatLanguageModel :=
  match p with
  | ConfiguredProvider c => lift (provider_function new_target c id s)
  | DefaultProvider => default_createModel rt id s
  end.

(** [p.chat(modelId, settings)]: [chat] is [createModel] itself. *)
Definition chat (rt : Runtime) (p : SAPAIProvider) (id : string) (s : option SAPAISettings)
  : M SAPAIChatLanguageModel :=
  match p with
  | ConfiguredProvider c => ret (createModel c id s)
  | DefaultProvider => default_createModel rt id s
  end.

(** ** A sample host

    A concrete runtime to run the definitions on: a Node.js process (so
    [Buffer] is defined) with [SAP_AI_TOKEN] set, and an authorization
    server at [https://auth.example] whose answer is a parameter. *)
Module Sample.

Definition alphabet : string :=
  "ABCDEFGHIJKLMNOPQRSTUVWXYZabcdefghijklmnopqrstuvwxyz0123456789+/".

Definition digit (n : N) : string :=
  match String.get (N.to_nat n) alphabet with
  | Some c => String c EmptyString
  | None => "="
  end.

(** Base64 of a byte string, with padding. *)
Fixpoint base64 (s : string) : string :=
  match s with
  | EmptyString => EmptyString
  | String a EmptyString =>
      let a := N_of_ascii a in
      digit (a / 4) +:+ digit (a mod 4 * 16) +:+ "=="
  | String a (String b EmptyString) =>
      let a := N_of_ascii a in
      let b := N_of_ascii b in
      digit (a / 4) +:+ digit (a mod 4 * 16 + b / 16) +:+ digit (b mod 16 * 4) +:+ "="
  | String a (String b (String c rest)) =>
      let a := N_of_ascii a in
      let b := N_of_ascii b in
      let c := N_of_ascii c in
      digit (a / 4) +:+ digit (a mod 4 * 16 + b / 16)
      +:+ digit (b mod 16 * 4 + c / 64) +:+ digit (c mod 64) +:+ base64 rest
  end.

(** [JSON.parse] on the texts the examples pass to it: the literals
    [null], [true], [false], [{}] and [[]] are JSON, the empty text and
    the word [oops] are not. *)
Definition parse (s : string) : option JSValue :=
  if String.eqb s "null" then Some VNull
  else if String.eqb s "true" then Some (VBool true)
  else if String.eqb s "false" then Some (VBool false)
  else if String.eqb s "{}" then Some (VObject [])
  else if String.eqb s "[]" then Some (VArray [])
  else None.

Definition granted : Response :=
  {| ok := true; status := 200; statusText := "OK";
     text := Ok "(token document)";
     json := Ok (VObject [("access_token", VString "oauth-token");
                          ("token_type", VString "bearer")]) |}.

Definition refused : Response :=
  {| ok := false; status := 401; statusText := "Unauthorized";
     text := Ok "Bad credentials";
     json := Throw SyntaxError |}.

(** A transport that only knows the token endpoint. *)
Definition server (answer : Response) : FetchFn :=
  fun req =>
    if String.eqb (req_url req) "https://auth.example/oauth/token"
    then Ok answer
    else Throw (Foreign "TypeError" "fetch failed").

Definition node (answer : Response) (env_token : option string) : Runtime :=
  {| JSON_parse := parse;
     process_env := fun name =>
       if String.eqb name "SAP_AI_TOKEN" then env_token else None;
     global_fetch := server answer;
     Buffer_base64 := Some base64;
     btoa := fun s => Ok (base64 s) |}.

Definition key : SAPAIServiceKey :=
  {| serviceurls := {| AI_API_URL := "https://api.example" |};
     clientid := "user";
     clientsecret := "pass";
     url := "https://auth.example";
     identityzone := None;
     identityzoneid := None;
     appname := None;
     credential_type := Some "binding-secret" |}.

End Sample.

(** ** Inputs of the examples *)

(** [{ ...options, token: t }] and [{ ...options, serviceKey: k }], with
    [None] for a bag without the property. *)
Definition with_token (t : option string) (o : SAPAIProviderSettings) : SAPAIProviderSettings :=
  {| serviceKey := serviceKey o; token := t; deploymentId := deploymentId o;
     resourceGroup := resourceGroup o; baseURL := baseURL o;
     completionPath := completionPath o; headers := headers o; fetch := fetch o;
     defaultSettings := defaultSettings o |}.

Definition with_serviceKey (k : option (string + SAPAIServiceKey)) (o : SAPAIProviderSettings)
  : SAPAIProviderSettings :=
  {| serviceKey := k; token := token o; deploymentId := deploymentId o;
     resourceGroup := resourceGroup o; baseURL := baseURL o;
     completionPath := completionPath o; headers := headers o; fetch := fetch o;
     defaultSettings := defaultSettings o |}.

Definition with_baseURL (u : option string) (o : SAPAIProviderSettings) : SAPAIProviderSettings :=
  {| serviceKey := serviceKey o; token := token o; deploymentId := deploymentId o;
     resourceGroup := resourceGroup o; baseURL := u;
     completionPath := completionPath o; headers := headers o; fetch := fetch o;
     defaultSettings := defaultSettings o |}.

(** [{ serviceKey: key }] with the typed sample key. *)
Definition key_only : SAPAIProviderSettings :=
  with_serviceKey (Some (inr Sample.key)) no_options.

(** [{ token: "", serviceKey: key }]. *)
Definition empty_token_and_key : SAPAIProviderSettings :=
  with_token (Some EmptyString) key_only.

(** [{ token: "secret", serviceKey: key }]. *)
Definition token_and_key : SAPAIProviderSettings :=
  with_token (Some "secret") key_only.

(** [{ token: "secret", serviceKey: "" }]. *)
Definition token_and_empty_key : SAPAIProviderSettings :=
  with_token (Some "secret") (with_serviceKey (Some (inl EmptyString)) no_options).

(** [{ token: "secret", serviceKey: "oops" }]. *)
Definition token_and_broken_key : SAPAIProviderSettings :=
  with_token (Some "secret") (with_serviceKey (Some (inl "oops")) no_options).

(** The request of the exchange for the sample key. *)
Definition sample_request : Request :=
  {| req_url := "https://auth.example/oauth/token";
     req_method := "POST";
     req_headers :=
       [ ("Content-Type", "application/x-www-form-urlencoded");
         ("Authorization", "Basic dXNlcjpwYXNz") ];
     req_body := "grant_type=client_credentials" |}.

(** Provider-level defaults [{ modelVersion: "latest", modelParams:
    { temperature: 0.7 } }] and call settings [{ safePrompt: true,
    modelParams: { maxTokens: 100 } }]. *)
Definition sample_defaults : SAPAISettings :=
  {| fields := {[ "modelVersion" := VString "latest" ]};
     modelParams := Some {[ "temperature" := VNumber "0.7" ]} |}.

Definition sample_call_settings : SAPAISettings :=
  {| fields := {[ "safePrompt" := VBool true ]};
     modelParams := Some {[ "maxTokens" := VNumber "100" ]} |}.

(** A synchronous provider whose custom headers replace [Authorization]. *)
Definition sample_custom_headers : gmap string string :=
  {[ "Authorization" := "Basic override"; "X-Custom-Header" := "value" ]}.

Definition sample_header_closure : Closure :=
  sync_closure "secret"
    {| serviceKey := None; token := None; deploymentId := None;
       resourceGroup := Some "production"; baseURL := None; completionPath := None;
       headers := Some sample_custom_headers; fetch := None; defaultSettings := None |}.

(** ** Further hosts and inputs *)

(** The same host with another global [fetch]. *)
Definition with_global_fetch (f : FetchFn) (rt : Runtime) : Runtime :=
  {| JSON_parse := JSON_parse rt; process_env := process_env rt; global_fetch := f;
     Buffer_base64 := Buffer_base64 rt; btoa := btoa rt |}.

(** [{ ...options, fetch: f }]. *)
Definition with_fetch (f : option FetchFn) (o : SAPAIProviderSettings) : SAPAIProviderSettings :=
  {| serviceKey := serviceKey o; token := token o; deploymentId := deploymentId o;
     resourceGroup := resourceGroup o; baseURL := baseURL o;
     completionPath := completionPath o; headers := headers o; fetch := f;
     defaultSettings := defaultSettings o |}.

(** A transport with no network behind it. *)
Definition unreachable : FetchFn :=
  fun _ => Throw (Foreign "TypeError" "fetch failed").

(** A browser without [Buffer] whose [btoa] refuses its input. *)
Definition strict_browser : Runtime :=
  {| JSON_parse := Sample.parse;
     process_env := fun _ => None;
     global_fetch := Sample.server Sample.granted;
     Buffer_base64 := None;
     btoa := fun _ => Throw (Foreign "InvalidCharacterError" "Invalid character") |}.

Definition quoted (s : string) : string := DQUOTE +:+ s +:+ DQUOTE.

(** The JSON text of the sample service key, as copied from the platform. *)
Definition sample_key_text : string :=
  "{" +:+ quoted "serviceurls" +:+ ":{" +:+ quoted "AI_API_URL" +:+ ":"
  +:+ quoted "https://api.example" +:+ "},"
  +:+ quoted "clientid" +:+ ":" +:+ quoted "user" +:+ ","
  +:+ quoted "clientsecret" +:+ ":" +:+ quoted "pass" +:+ ","
  +:+ quoted "url" +:+ ":" +:+ quoted "https://auth.example" +:+ ","
  +:+ quoted "credential-type" +:+ ":" +:+ quoted "binding-secret" +:+ "}".

(** The sample host, whose [JSON.parse] also reads that text. *)
Definition node_reading_key (answer : Response) (env_token : option string) : Runtime :=
  {| JSON_parse := fun s =>
       if String.eqb s sample_key_text then Some (service_key_object Sample.key)
       else Sample.parse s;
     process_env := process_env (Sample.node answer env_token);
     global_fetch := Sample.server answer;
     Buffer_base64 := Some Sample.base64;
     btoa := fun s => Ok (Sample.base64 s) |}.

(** Success responses with an unusual body: a token document without
    [access_token], the JSON value [null], and a body that is not JSON. *)
Definition grant_without_token : Response :=
  {| ok := true; status := 200; statusText := "OK";
     text := Ok "(token document)";
     json := Ok (VObject [("token_type", VString "bearer")]) |}.

Definition grant_null : Response :=
  {| ok := true; status := 200; statusText := "OK";
     text := Ok "null"; json := Ok VNull |}.

Definition grant_not_json : Response :=
  {| ok := true; status := 200; statusText := "OK";
     text := Ok "<html>"; json := Throw SyntaxError |}.

(** A refusal whose body cannot be read. *)
Definition refusal_unreadable : Response :=
  {| ok := false; status := 502; statusText := "Bad Gateway";
     text := Throw (Foreign "TypeError" "terminated");
     json := Throw SyntaxError |}.

(** Unfolds the monad, to run a computation on the spot. *)
Ltac run := unfold bind, lift, ret, throw, call_fetch, outcome, trace; simpl.

(** * Properties *)

(** ** The sample host behaves *)

Example base64_user_pass : Sample.base64 "user:pass" = "dXNlcjpwYXNz".
Proof. reflexivity. Qed.

Example base64_padding : Sample.base64 "ab" = "YWI=" /\ Sample.base64 "a" = "YQ==".
Proof. split; reflexivity. Qed.

Example sample_request_is_sent answer env :
  oauth_request (Sample.node answer env) (service_key_object Sample.key) = Ok sample_request.
Proof. reflexivity. Qed.

(** ** Strings and conversions *)

Lemma string_truthy_spec s : string_truthy s = true <-> s <> EmptyString.
Proof. destruct s; simpl; split; intros; congruence. Qed.

Lemma string_truthy_false s : string_truthy s = false <-> s = EmptyString.
Proof. destruct s; simpl; split; intros; congruence. Qed.

Lemma append_nil (s : string) : EmptyString +:+ s = s.
Proof. reflexivity. Qed.

Lemma append_cons c (r s : string) : String c r +:+ s = String c (r +:+ s).
Proof. reflexivity. Qed.

(** Stripping removes exactly one final slash, and nothing else. *)
Lemma strip_final_slash_spec s :
  (exists r, s = r +:+ "/" /\ strip_final_slash s = r)
  \/ (strip_final_slash s = s /\ forall r, s <> r +:+ "/").
Proof.
  induction s as [|c s IH].
  - right. split; [reflexivity|]. intros [|? ?]; discriminate.
  - destruct s as [|d s].
    + simpl. destruct (Ascii.eqb_spec c "/") as [->|Hc].
      * left. exists EmptyString. split; reflexivity.
      * right. split; [reflexivity|].
        intros [|x [|y r]]; rewrite ?append_cons, ?append_nil;
          intros E; inversion E; congruence.
    + change (strip_final_slash (String c (String d s)))
        with (String c (strip_final_slash (String d s))).
      destruct IH as [[r [E1 E2]] | [E1 E2]].
      * left. exists (String c r). rewrite append_cons, E2. split; [|reflexivity].
        now rewrite E1.
      * right. rewrite E1. split; [reflexivity|].
        intros [|x r]; rewrite ?append_cons, ?append_nil; intros E; inversion E; subst.
        eapply E2. eassumption.
Qed.

Lemma ToString_string s : ToString (VString s) = Ok s.
Proof. reflexivity. Qed.

Example ToString_array :
  ToString (VArray [VNumber "1"; VNull; VArray [VBool true; VString "x"]; VObject []])
  = Ok "1,,true,x,[object Object]".
Proof. reflexivity. Qed.

Example ToString_shadowed :
  ToString (VObject [("toString", VNumber "1")]) = Throw TypeError.
Proof. reflexivity. Qed.

Example get_on_missing_object :
  (try! urls <- get (VObject []) "serviceurls"; get urls "AI_API_URL") = Throw TypeError.
Proof. reflexivity. Qed.

(** A typed service key is an object: truthy, with the properties the
    interface promises. *)
Lemma service_key_object_truthy k : truthy (service_key_object k) = true.
Proof. reflexivity. Qed.

Lemma service_key_object_api k :
  (try! urls <- get (service_key_object k) "serviceurls"; get urls "AI_API_URL")
  = Ok (VString (AI_API_URL (serviceurls k))).
Proof. reflexivity. Qed.

(** ** Provider creation, step by step *)

(** [createSAPAIProvider] runs its three steps in order and stops at the
    first that throws; only the third one talks to the outside world. *)
Lemma createSAPAIProvider_steps rt options :
  createSAPAIProvider rt options =
  match parse_service_key rt options with
  | Throw e => (Throw e, [])
  | Ok k =>
      match determine_baseURL options k with
      | Throw e => (Throw e, [])
      | Ok b =>
          match determine_authentication rt options k with
          | (Throw e, tr) => (Throw e, tr)
          | (Ok tok, tr) =>
              (Ok (ConfiguredProvider
                     {| cl_defaultSettings := defaultSettings options;
                        cl_completionPath := completionPath options;
                        cl_headers := headers options;
                        cl_fetch := fetch options;
                        cl_baseURL := b;
                        cl_authToken := tok;
                        cl_deploymentId := nullish (deploymentId options) default_deploymentId;
                        cl_resourceGroup := nullish (resourceGroup options) "default" |}),
               tr)
          end
      end
  end.
Proof.
  unfold createSAPAIProvider. run.
  destruct (parse_service_key rt options) as [k|e]; [|reflexivity].
  destruct (determine_baseURL options k) as [b|e]; [|reflexivity].
  destruct (determine_authentication rt options k) as [[tok|e] tr]; simpl;
    rewrite ?app_nil_r; reflexivity.
Qed.

Lemma createSAPAIProvider_trace rt options :
  trace (createSAPAIProvider rt options) = [] \/
  exists k, parse_service_key rt options = Ok k
            /\ trace (createSAPAIProvider rt options)
               = trace (determine_authentication rt options k).
Proof.
  rewrite createSAPAIProvider_steps.
  destruct (parse_service_key rt options) as [k|e]; [|now left].
  destruct (determine_baseURL options k) as [b|e]; [|now left].
  right. exists k. split; [reflexivity|].
  now destruct (determine_authentication rt options k) as [[tok|e] tr].
Qed.

Lemma createSAPAIProvider_inv rt options p tr :
  createSAPAIProvider rt options = (Ok p, tr) ->
  exists k b tok,
    parse_service_key rt options = Ok k
    /\ determine_baseURL options k = Ok b
    /\ determine_authentication rt options k = (Ok tok, tr)
    /\ p = ConfiguredProvider
             {| cl_defaultSettings := defaultSettings options;
                cl_completionPath := completionPath options;
                cl_headers := headers options;
                cl_fetch := fetch options;
                cl_baseURL := b;
                cl_authToken := tok;
                cl_deploymentId := nullish (deploymentId options) default_deploymentId;
                cl_resourceGroup := nullish (resourceGroup options) "default" |}.
Proof.
  rewrite createSAPAIProvider_steps.
  destruct (parse_service_key rt options) as [k|e] eqn:Ek; [|discriminate].
  destruct (determine_baseURL options k) as [b|e] eqn:Eb; [|discriminate].
  destruct (determine_authentication rt options k) as [[tok|e] tr'] eqn:Ea; [|discriminate].
  intros [= <- <-]. exists k, b, tok. repeat split; assumption.
Qed.

(** The exchange makes at most one network call, and reads no environment
    variable. *)
Lemma getOAuthToken_trace rt k f :
  trace (getOAuthToken rt k f) = []
  \/ exists req, oauth_request rt k = Ok req
                 /\ trace (getOAuthToken rt k f) = [NetworkCall req].
Proof.
  unfold getOAuthToken. run.
  destruct (oauth_request rt k) as [req|e]; [|now left].
  right. exists req. split; [reflexivity|]. simpl.
  destruct (nullish f (global_fetch rt) req) as [r|e]; [|reflexivity].
  destruct (ok r); simpl.
  - destruct (json r); reflexivity.
  - destruct (text r); reflexivity.
Qed.

Lemma token_truthy_spec options :
  token_truthy options = true <-> exists t, token options = Some t /\ t <> EmptyString.
Proof.
  unfold token_truthy. destruct (token options) as [t|]; simpl.
  - rewrite string_truthy_spec. split; [intros; now exists t | now intros [? [[= <-] ?]]].
  - split; [discriminate | now intros [? [? ?]]].
Qed.

(** The three modes of "Determine authentication". *)
Lemma determine_authentication_token rt options k t :
  token options = Some t -> t <> EmptyString ->
  determine_authentication rt options k = (Ok (VString t), []).
Proof.
  intros Ht Hne. unfold determine_authentication.
  replace (token_truthy options) with true
    by (symmetry; apply token_truthy_spec; eauto).
  now rewrite Ht.
Qed.

Lemma determine_authentication_key rt options k :
  token_truthy options = false -> truthy k = true ->
  determine_authentication rt options k = getOAuthToken rt k (fetch options).
Proof. intros Ht Hk. unfold determine_authentication. now rewrite Ht, Hk. Qed.

Lemma determine_authentication_env rt options k :
  token_truthy options = false -> truthy k = false ->
  determine_authentication rt options k
  = (match process_env rt "SAP_AI_TOKEN" with
     | Some apiKey => Ok (VString apiKey)
     | None =>
         Throw (LoadAPIKeyError
                  ("SAP AI Core API key is missing. Pass it using the 'apiKey' parameter or the "
                   +:+ "SAP_AI_TOKEN environment variable."))
     end,
     [EnvRead "SAP_AI_TOKEN"]).
Proof.
  intros Ht Hk. unfold determine_authentication, loadApiKey. rewrite Ht, Hk. run.
  now destruct (process_env rt "SAP_AI_TOKEN").
Qed.

Lemma determine_authentication_events rt options k ev :
  In ev (trace (determine_authentication rt options k)) ->
  token_truthy options = false
  /\ ((exists req, ev = NetworkCall req) /\ truthy k = true
      \/ ev = EnvRead "SAP_AI_TOKEN" /\ truthy k = false).
Proof.
  destruct (token_truthy options) eqn:Ht.
  - apply token_truthy_spec in Ht as [t [Ht Hne]].
    now rewrite (determine_authentication_token rt options k t).
  - destruct (truthy k) eqn:Hk.
    + rewrite determine_authentication_key by assumption.
      destruct (getOAuthToken_trace rt k (fetch options)) as [-> | [req [_ ->]]].
      * intros [].
      * intros [<- | []]. split; [reflexivity|]. left. eauto.
    + rewrite determine_authentication_env by assumption.
      intros [<- | []]. split; [reflexivity|]. now right.
Qed.

Lemma token_truthy_false_spec options :
  token_truthy options = false <->
  token options = None \/ token options = Some EmptyString.
Proof.
  unfold token_truthy. destruct (token options) as [t|]; simpl.
  - rewrite string_truthy_false. split.
    + intros ->. now right.
    + now intros [? | [= ->]].
  - split; [now left | reflexivity].
Qed.

(** ** Credential resolution *)

(** With an empty token and a service key, the exchange runs and its token
    is the one used. *)
Example empty_token_runs_the_exchange :
  createSAPAIProvider (Sample.node Sample.granted None) empty_token_and_key
  = (Ok (ConfiguredProvider
           {| cl_defaultSettings := None; cl_completionPath := None;
              cl_headers := None; cl_fetch := None;
              cl_baseURL := "https://api.example/v2";
              cl_authToken := VString "oauth-token";
              cl_deploymentId := "d65d81e7c077e583";
              cl_resourceGroup := "default" |}),
     [NetworkCall sample_request]).
Proof. reflexivity. Qed.

(** A token does not make up for a service key without [serviceurls]:
    [{ token: "secret", serviceKey: "{}" }] throws while the base URL is
    resolved, before any credential is looked at. *)
Example token_with_shapeless_key :
  createSAPAIProvider (Sample.node Sample.granted None)
    (with_token (Some "secret") (with_serviceKey (Some (inl "{}")) no_options))
  = (Throw TypeError, []).
Proof. reflexivity. Qed.

(** C1, as written, fails: a token string can be supplied without being the
    credential used. For [{ token: "", serviceKey: key }] the empty token is
    supplied, yet [if (options.token)] is false, the OAuth exchange is
    performed (one network call) and the provider carries the token of the
    exchange. *)
Lemma supplied_token_not_always_used :
  ~ (forall rt options t,
       token options = Some t ->
       forall p tr,
         createSAPAIProvider rt options = (Ok p, tr) ->
         (exists c, p = ConfiguredProvider c /\ cl_authToken c = VString t)
         /\ forall req, ~ In (NetworkCall req) tr).
Proof.
  intros claim.
  destruct (claim (Sample.node Sample.granted None) empty_token_and_key EmptyString
              eq_refl _ _ empty_token_runs_the_exchange) as [_ quiet].
  apply (quiet sample_request). now left.
Qed.

(** C1, amended: credential resolution obeys a strict priority on
    truthiness. For every settings bag whose token is a non-empty string, no
    network call is made and no environment variable is read, every provider
    that creation returns carries that token verbatim, and creation does
    return one whenever the service key (if any) parses and the base URL
    resolves, so also when a service key is supplied. A network call is made
    only when the token is absent or empty and the parsed service key is
    truthy; an environment variable is read only when the token is absent or
    empty and no truthy service key was parsed, and it is [SAP_AI_TOKEN]. *)
Theorem credential_priority rt options :
  (forall t, token options = Some t -> t <> EmptyString ->
     trace (createSAPAIProvider rt options) = []
     /\ (forall p, outcome (createSAPAIProvider rt options) = Ok p ->
         exists c, p = ConfiguredProvider c /\ cl_authToken c = VString t)
     /\ (forall k b,
           parse_service_key rt options = Ok k ->
           determine_baseURL options k = Ok b ->
           exists c, createSAPAIProvider rt options = (Ok (ConfiguredProvider c), [])
                     /\ cl_authToken c = VString t))
  /\ (forall req, In (NetworkCall req) (trace (createSAPAIProvider rt options)) ->
      (token options = None \/ token options = Some EmptyString)
      /\ exists k, parse_service_key rt options = Ok k /\ truthy k = true)
  /\ (forall name, In (EnvRead name) (trace (createSAPAIProvider rt options)) ->
      name = "SAP_AI_TOKEN"
      /\ (token options = None \/ token options = Some EmptyString)
      /\ exists k, parse_service_key rt options = Ok k /\ truthy k = false).
Proof.
  split; [|split].
  - intros t Ht Hne. rewrite createSAPAIProvider_steps.
    destruct (parse_service_key rt options) as [k|e].
    + destruct (determine_baseURL options k) as [b|e] eqn:Eb.
      * rewrite (determine_authentication_token rt options k t Ht Hne).
        split; [reflexivity|]. split.
        -- intros p [= <-]. eexists. split; reflexivity.
        -- intros k' b' [= <-] _. eexists. split; reflexivity.
      * split; [reflexivity|]. split; [discriminate|].
        intros k' b' [= <-] Hb. congruence.
    + split; [reflexivity|]. split; discriminate.
  - intros req Hin.
    destruct (createSAPAIProvider_trace rt options) as [E | [k [Hk E]]];
      rewrite E in Hin; [destruct Hin|].
    apply determine_authentication_events in Hin as [Ht [[_ Htr] | [[=] _]]].
    split; [now apply token_truthy_false_spec|]. eauto.
  - intros name Hin.
    destruct (createSAPAIProvider_trace rt options) as [E | [k [Hk E]]];
      rewrite E in Hin; [destruct Hin|].
    apply determine_authentication_events in Hin as [Ht [[[req [=]] _] | [[= ->] Htr]]].
    split; [reflexivity|]. split; [now apply token_truthy_false_spec|]. eauto.
Qed.

Lemma credential_priority_witness :
  trace (createSAPAIProvider (Sample.node Sample.granted None) token_and_key) = []
  /\ exists c,
       createSAPAIProvider (Sample.node Sample.granted None) token_and_key
       = (Ok (ConfiguredProvider c), [])
       /\ cl_authToken c = VString "secret".
Proof.
  destruct (credential_priority (Sample.node Sample.granted None) token_and_key)
    as [explicit _].
  destruct (explicit "secret" eq_refl ltac:(discriminate)) as (quiet & _ & created).
  split; [exact quiet|].
  exact (created _ _ eq_refl eq_refl).
Defined.

(** ** Endpoint resolution *)

(** Called as a plain function, or through [chat], a configured provider
    hands out [createModel]'s handle without touching the outside world. *)
Lemma call_is_chat rt c id s :
  call false rt (ConfiguredProvider c) id s = (Ok (createModel c id s), [])
  /\ chat rt (ConfiguredProvider c) id s = (Ok (createModel c id s), []).
Proof. split; reflexivity. Qed.

(** C2: the completion URL handed to the chat model. Without
    [completionPath] it is
    [{baseURL}/inference/deployments/{deploymentId}/v2/completion], the
    deployment being the supplied one or [d65d81e7c077e583]; with
    [completionPath] it is [{baseURL}{completionPath}]. Here for the
    providers of [createSAPAIProvider]; [completion_url_sync] is the same
    for [createSAPAIProviderSync]. *)
Theorem completion_url rt options c tr :
  createSAPAIProvider rt options = (Ok (ConfiguredProvider c), tr) ->
  forall id s,
    (completionPath options = None ->
     cfg_baseURL (config (createModel c id s))
     = cl_baseURL c +:+ "/inference/deployments/"
       +:+ nullish (deploymentId options) "d65d81e7c077e583" +:+ "/v2/completion")
    /\ (forall path, completionPath options = Some path ->
        cfg_baseURL (config (createModel c id s)) = cl_baseURL c +:+ path).
Proof.
  intros H id s.
  apply createSAPAIProvider_inv in H as (k & b & tok & _ & _ & _ & [= ->]).
  unfold createModel; simpl. split.
  - now intros ->.
  - now intros path ->.
Qed.

Lemma completion_url_witness :
  cfg_baseURL
    (config
       (createModel
          {| cl_defaultSettings := None; cl_completionPath := None;
             cl_headers := None; cl_fetch := None;
             cl_baseURL := "https://api.example/v2";
             cl_authToken := VString "secret";
             cl_deploymentId := "d65d81e7c077e583";
             cl_resourceGroup := "default" |}
          "gpt-4o" None))
  = "https://api.example/v2/inference/deployments/d65d81e7c077e583/v2/completion".
Proof.
  exact (proj1 (completion_url (Sample.node Sample.granted None) token_and_key _ []
                  eq_refl "gpt-4o" None) eq_refl).
Defined.

Lemma completion_url_sync t options id s :
  cfg_baseURL (config (createModel (sync_closure t options) id s))
  = match completionPath options with
    | Some path => cl_baseURL (sync_closure t options) +:+ path
    | None =>
        cl_baseURL (sync_closure t options) +:+ "/inference/deployments/"
        +:+ nullish (deploymentId options) "d65d81e7c077e583" +:+ "/v2/completion"
    end.
Proof. reflexivity. Qed.

(** An explicit base URL wins whatever the parsed service key is. *)
Lemma determine_baseURL_explicit options k u :
  baseURL options = Some u ->
  determine_baseURL options k = Ok (strip_final_slash u).
Proof.
  intros Hu. unfold determine_baseURL, withoutTrailingSlash. rewrite Hu. simpl.
  now destruct (truthy k).
Qed.

Lemma determine_baseURL_default options k :
  baseURL options = None -> truthy k = false ->
  determine_baseURL options k
  = Ok "https://api.ai.prod.eu-central-1.aws.ml.hana.ondemand.com/v2".
Proof.
  intros Hu Hk. unfold determine_baseURL, withoutTrailingSlash. now rewrite Hu, Hk.
Qed.

Lemma determine_baseURL_key options k b :
  baseURL options = None -> truthy k = true ->
  determine_baseURL options k = Ok b ->
  exists urls api text,
    get k "serviceurls" = Ok urls /\ get urls "AI_API_URL" = Ok api
    /\ ToString api = Ok text /\ b = text +:+ "/v2".
Proof.
  intros Hu Hk. unfold determine_baseURL, withoutTrailingSlash. rewrite Hu, Hk. simpl.
  destruct (get k "serviceurls") as [urls|e] eqn:E1; [|discriminate]. simpl.
  destruct (get urls "AI_API_URL") as [api|e] eqn:E2; [|discriminate]. simpl.
  destruct (ToString api) as [text|e] eqn:E3; [|discriminate]. simpl.
  intros [= <-]. exists urls, api, text. auto.
Qed.

(** C3: base-URL resolution is a three-way priority. For every provider
    that creation returns: a supplied [baseURL], one final slash stripped,
    is its base URL whatever the service key is; otherwise, when a service
    key was parsed (to a truthy value [k]), it is [{AI_API_URL}/v2] with the
    [AI_API_URL] of the key's [serviceurls]; otherwise it is the default
    production URL. The last two conjuncts read the same off the settings
    bag for a typed service key and for no service key. *)
Theorem base_url_priority rt options c tr :
  createSAPAIProvider rt options = (Ok (ConfiguredProvider c), tr) ->
  (exists k,
     parse_service_key rt options = Ok k
     /\ match baseURL options with
        | Some u => cl_baseURL c = strip_final_slash u
        | None =>
            if truthy k then
              exists urls api text,
                get k "serviceurls" = Ok urls /\ get urls "AI_API_URL" = Ok api
                /\ ToString api = Ok text /\ cl_baseURL c = text +:+ "/v2"
            else
              cl_baseURL c = "https://api.ai.prod.eu-central-1.aws.ml.hana.ondemand.com/v2"
        end)
  /\ (forall key, serviceKey options = Some (inr key) -> baseURL options = None ->
      cl_baseURL c = AI_API_URL (serviceurls key) +:+ "/v2")
  /\ (serviceKey options = None -> baseURL options = None ->
      cl_baseURL c = "https://api.ai.prod.eu-central-1.aws.ml.hana.ondemand.com/v2").
Proof.
  intros H.
  apply createSAPAIProvider_inv in H as (k & b & tok & Hk & Hb & _ & [= ->]). simpl.
  split; [|split].
  - exists k. split; [assumption|].
    destruct (baseURL options) as [u|] eqn:Hu.
    + rewrite (determine_baseURL_explicit options k u Hu) in Hb. congruence.
    + destruct (truthy k) eqn:Ht.
      * exact (determine_baseURL_key options k b Hu Ht Hb).
      * rewrite determine_baseURL_default in Hb by assumption. congruence.
  - intros key Hkey Hu. unfold parse_service_key in Hk. rewrite Hkey in Hk.
    injection Hk as <-.
    unfold determine_baseURL, withoutTrailingSlash in Hb. rewrite Hu in Hb.
    simpl in Hb. congruence.
  - intros Hkey Hu. unfold parse_service_key in Hk. rewrite Hkey in Hk.
    injection Hk as <-.
    rewrite determine_baseURL_default in Hb by auto. congruence.
Qed.

Lemma base_url_priority_witness :
  strip_final_slash "https://proxy.example/sap-ai/" = "https://proxy.example/sap-ai"
  /\ exists c,
       createSAPAIProvider (Sample.node Sample.granted None)
         (with_baseURL (Some "https://proxy.example/sap-ai/") token_and_key)
       = (Ok (ConfiguredProvider c), [])
       /\ cl_baseURL c = "https://proxy.example/sap-ai".
Proof.
  split; [reflexivity|]. eexists. split; [reflexivity|].
  destruct (base_url_priority (Sample.node Sample.granted None)
              (with_baseURL (Some "https://proxy.example/sap-ai/") token_and_key)
              _ [] eq_refl) as [[k [_ explicit]] _].
  exact explicit.
Defined.

Lemma base_url_sync t options :
  cl_baseURL (sync_closure t options)
  = match baseURL options with
    | Some u => strip_final_slash u
    | None => "https://api.ai.prod.eu-central-1.aws.ml.hana.ondemand.com/v2"
    end.
Proof. unfold sync_closure, withoutTrailingSlash. simpl. now destruct (baseURL options). Qed.

(** ** Failures of provider creation *)

(** With an empty service key string and a token, creation succeeds: the
    string is never parsed. *)
Example empty_service_key_is_not_parsed :
  createSAPAIProvider (Sample.node Sample.granted None) token_and_empty_key
  = (Ok (ConfiguredProvider
           {| cl_defaultSettings := None; cl_completionPath := None;
              cl_headers := None; cl_fetch := None;
              cl_baseURL := "https://api.ai.prod.eu-central-1.aws.ml.hana.ondemand.com/v2";
              cl_authToken := VString "secret";
              cl_deploymentId := "d65d81e7c077e583";
              cl_resourceGroup := "default" |}),
     []).
Proof. reflexivity. Qed.

(** C4, as written, fails: the empty string is not JSON, yet
    [{ token: "secret", serviceKey: "" }] creates a provider, because
    [if (options.serviceKey)] is false for it and [JSON.parse] is not
    reached. *)
Lemma not_every_malformed_service_key_fails :
  ~ (forall rt options s,
       serviceKey options = Some (inl s) ->
       JSON_parse rt s = None ->
       outcome (createSAPAIProvider rt options)
       = Throw (Error "Invalid service key JSON format")).
Proof.
  intros claim.
  specialize (claim (Sample.node Sample.granted None) token_and_empty_key EmptyString
                eq_refl eq_refl).
  rewrite empty_service_key_is_not_parsed in claim. discriminate.
Qed.

(** C4, amended: for every non-empty string supplied as [serviceKey] that
    is not valid JSON, provider creation fails with the error "Invalid
    service key JSON format" (a plain [Error], the configuration error of
    the specification), and nothing happened before the failure: no network
    call, no environment read. *)
Theorem malformed_service_key rt options s :
  serviceKey options = Some (inl s) ->
  s <> EmptyString ->
  JSON_parse rt s = None ->
  createSAPAIProvider rt options
  = (Throw (Error "Invalid service key JSON format"), []).
Proof.
  intros Hs Hne Hparse. rewrite createSAPAIProvider_steps.
  unfold parse_service_key. rewrite Hs.
  apply string_truthy_spec in Hne. now rewrite Hne, Hparse.
Qed.

Lemma malformed_service_key_witness :
  createSAPAIProvider (Sample.node Sample.granted None) token_and_broken_key
  = (Throw (Error "Invalid service key JSON format"), []).
Proof.
  exact (malformed_service_key (Sample.node Sample.granted None) token_and_broken_key
           "oops" eq_refl ltac:(discriminate) eq_refl).
Defined.

(** ** The exchange *)

(** What [getOAuthToken] returns once its request could be built and the
    transport answered. *)
Lemma getOAuthToken_answered rt k f req r :
  oauth_request rt k = Ok req ->
  nullish f (global_fetch rt) req = Ok r ->
  getOAuthToken rt k f
  = (if ok r then try! tokenData <- json r; get tokenData "access_token"
     else try! errorText <- text r; Throw (Error (oauth_failure_message r errorText)),
     [NetworkCall req]).
Proof.
  intros Hreq Hr. unfold getOAuthToken. rewrite Hreq. run. rewrite Hr.
  destruct (ok r); simpl.
  - destruct (json r); reflexivity.
  - destruct (text r); reflexivity.
Qed.

(** C5: the service-key mode (token absent or empty, a truthy parsed service
    key [k], a base URL that resolves, the request [req] of the exchange
    answered by the response [r]). When [r] is not a success ([ok] is
    false) and its body text is [body], creation fails with an error whose
    message is "Failed to get OAuth access token: ", the status code, a
    space, the status text, a line feed and [body]; for status 401 the
    message contains "401". When [r] is a success with a JSON body [data],
    the token of the provider is [data.access_token]. The error is a plain
    [Error]; the specification calls this failure an authentication
    error. *)
Theorem oauth_exchange rt options k req r :
  (token options = None \/ token options = Some EmptyString) ->
  parse_service_key rt options = Ok k ->
  truthy k = true ->
  (exists b, determine_baseURL options k = Ok b) ->
  oauth_request rt k = Ok req ->
  nullish (fetch options) (global_fetch rt) req = Ok r ->
  (ok r = false -> forall body, text r = Ok body ->
   createSAPAIProvider rt options
   = (Throw (Error ("Failed to get OAuth access token: " +:+ pretty (status r) +:+ " "
                    +:+ statusText r +:+ LF +:+ body)),
      [NetworkCall req]))
  /\ (ok r = false -> status r = 401%N -> forall body, text r = Ok body ->
      exists message before after,
        createSAPAIProvider rt options = (Throw (Error message), [NetworkCall req])
        /\ message = before +:+ "401" +:+ after)
  /\ (ok r = true -> forall data tok,
        json r = Ok data -> get data "access_token" = Ok tok ->
        exists c,
          createSAPAIProvider rt options = (Ok (ConfiguredProvider c), [NetworkCall req])
          /\ cl_authToken c = tok).
Proof.
  intros Ht Hk Htr [b Hb] Hreq Hr.
  apply token_truthy_false_spec in Ht.
  assert (Hsteps := createSAPAIProvider_steps rt options).
  rewrite Hk, Hb, (determine_authentication_key rt options k Ht Htr),
    (getOAuthToken_answered rt k (fetch options) req r Hreq Hr) in Hsteps.
  split; [|split].
  - intros Hok body Hbody. rewrite Hsteps, Hok, Hbody. reflexivity.
  - intros Hok Hst body Hbody. rewrite Hsteps, Hok, Hbody. simpl.
    unfold oauth_failure_message. rewrite Hst.
    eexists _, "Failed to get OAuth access token: ", _. split; reflexivity.
  - intros Hok data tok Hdata Htok. rewrite Hsteps, Hok, Hdata. simpl. rewrite Htok.
    eexists. split; reflexivity.
Qed.

Lemma oauth_exchange_witness :
  createSAPAIProvider (Sample.node Sample.refused None) key_only
  = (Throw (Error ("Failed to get OAuth access token: 401 Unauthorized" +:+ LF
                   +:+ "Bad credentials")),
     [NetworkCall sample_request])
  /\ exists c,
       createSAPAIProvider (Sample.node Sample.granted None) key_only
       = (Ok (ConfiguredProvider c), [NetworkCall sample_request])
       /\ cl_authToken c = VString "oauth-token".
Proof.
  split.
  - exact (proj1 (oauth_exchange (Sample.node Sample.refused None) key_only
                    (service_key_object Sample.key) sample_request Sample.refused
                    (or_introl eq_refl) eq_refl eq_refl (ex_intro _ _ eq_refl)
                    eq_refl eq_refl)
             eq_refl "Bad credentials" eq_refl).
  - exact (proj2 (proj2 (oauth_exchange (Sample.node Sample.granted None) key_only
                           (service_key_object Sample.key) sample_request Sample.granted
                           (or_introl eq_refl) eq_refl eq_refl (ex_intro _ _ eq_refl)
                           eq_refl eq_refl))
             eq_refl _ (VString "oauth-token") eq_refl eq_refl).
Defined.

(** ** Settings merge *)

Lemma union_lookup {V} (m1 m2 : gmap string V) key :
  (m1 ∪ m2) !! key = match m1 !! key with Some v => Some v | None => m2 !! key end.
Proof. rewrite lookup_union. destruct (m1 !! key), (m2 !! key); reflexivity. Qed.

Lemma union_absorb {V} (m1 m2 : gmap string V) : m1 ∪ (m1 ∪ m2) = m1 ∪ m2.
Proof.
  apply map_eq. intros key. rewrite !union_lookup. now destruct (m1 !! key).
Qed.

(** Merging the same call settings in twice changes nothing, whatever the
    keys are. *)
Lemma mergeSettings_again a b :
  mergeSettings (Some (mergeSettings (Some a) b)) b = mergeSettings (Some a) b.
Proof. unfold mergeSettings. simpl. now rewrite !union_absorb. Qed.

Lemma createModel_merges c id s :
  settings (createModel c id s)
  = mergeSettings (cl_defaultSettings c) (nullish s empty_settings).
Proof. reflexivity. Qed.

(** Without provider-level defaults the call settings pass through, with a
    [modelParams] object in any case. *)
Lemma mergeSettings_no_defaults b :
  mergeSettings None b
  = {| fields := fields b; modelParams := Some (nullish (modelParams b) ∅) |}.
Proof.
  unfold mergeSettings. simpl. now rewrite !map_union_empty.
Qed.

(** C6: the settings merge, [mergeSettings (Some base) override], is a
    function of its two arguments in which every top-level key of the
    override replaces the one of the base, the [modelParams] sub-mapping is
    merged on its own with the same rule (a model parameter the override
    does not name keeps the provider-level default), and merging the
    override in again gives the same settings when the key sets are
    disjoint at the top level and within [modelParams]. *)
Theorem settings_merge (a b : SAPAISettings) :
  (forall key,
     fields (mergeSettings (Some a) b) !! key
     = match fields b !! key with
       | Some v => Some v
       | None => fields a !! key
       end)
  /\ (exists params,
        modelParams (mergeSettings (Some a) b) = Some params
        /\ forall key,
             params !! key
             = match nullish (modelParams b) ∅ !! key with
               | Some v => Some v
               | None => nullish (modelParams a) ∅ !! key
               end)
  /\ (fields a ##ₘ fields b ->
      nullish (modelParams a) ∅ ##ₘ nullish (modelParams b) ∅ ->
      mergeSettings (Some (mergeSettings (Some a) b)) b = mergeSettings (Some a) b).
Proof.
  split; [|split].
  - intros key. apply union_lookup.
  - eexists. split; [reflexivity|]. intros key. apply union_lookup.
  - intros _ _. apply mergeSettings_again.
Qed.

Lemma settings_merge_witness :
  mergeSettings (Some (mergeSettings (Some sample_defaults) sample_call_settings))
    sample_call_settings
  = mergeSettings (Some sample_defaults) sample_call_settings.
Proof.
  apply (proj2 (proj2 (settings_merge sample_defaults sample_call_settings)));
    apply map_disjoint_singleton_l_2; reflexivity.
Defined.

(** The example of the specification: one parameter from each side. *)
Example merge_keeps_unrelated_defaults :
  modelParams (mergeSettings (Some sample_defaults) sample_call_settings)
  = Some {[ "maxTokens" := VNumber "100"; "temperature" := VNumber "0.7" ]}.
Proof.
  vm_compute. reflexivity.
Qed.

(** ** Request headers *)

(** C7: each invocation of the header-producing function of a model handle
    returns the map [{ Authorization: "Bearer " + token, "Content-Type":
    "application/json", "ai-resource-group": resourceGroup }] extended with
    the custom headers, which are merged last: on any name they define,
    [Authorization] included, theirs is the value. [bearer] is the text of
    the token in the template literal (the token itself when it is a
    string); the closure [c] ranges over every provider, so over every
    handle. *)
Theorem header_factory (c : Closure) id s bearer :
  ToString (cl_authToken c) = Ok bearer ->
  exists hs : gmap string string,
    call_headers (cfg_headers (config (createModel c id s))) = Ok hs
    /\ hs = nullish (cl_headers c) ∅
            ∪ {[ "Authorization" := "Bearer " +:+ bearer;
                 "Content-Type" := "application/json";
                 "ai-resource-group" := cl_resourceGroup c ]}
    /\ (forall name value,
          nullish (cl_headers c) ∅ !! name = Some value -> hs !! name = Some value)
    /\ (forall value,
          nullish (cl_headers c) ∅ !! "Authorization" = Some value ->
          hs !! "Authorization" = Some value).
Proof.
  intros Hb. unfold call_headers, createModel. simpl. rewrite Hb. simpl.
  eexists. split; [reflexivity|].
  assert (Hwins : forall name value,
             nullish (cl_headers c) ∅ !! name = Some value ->
             (nullish (cl_headers c) ∅
              ∪ <["ai-resource-group":=cl_resourceGroup c]>
                  (<["Content-Type":="application/json"]>
                     (<["Authorization":="Bearer " +:+ bearer]> ∅))) !! name = Some value).
  { intros name value Hc. rewrite union_lookup. now rewrite Hc. }
  split; [|split].
  - reflexivity.
  - exact Hwins.
  - intros value. apply Hwins.
Qed.

Lemma header_factory_witness :
  exists hs : gmap string string,
    call_headers (cfg_headers (config (createModel sample_header_closure "gpt-4o" None)))
    = Ok hs
    /\ hs !! "Authorization" = Some "Basic override"
    /\ hs !! "ai-resource-group" = Some "production"
    /\ hs !! "Content-Type" = Some "application/json".
Proof.
  destruct (header_factory sample_header_closure "gpt-4o" None "secret" eq_refl)
    as (hs & Hcall & Heq & Hwins & _).
  exists hs. split; [exact Hcall|]. split; [now apply Hwins|].
  rewrite Heq. split; reflexivity.
Defined.

(** Without custom headers the generated ones are what the handle sends. *)
Example generated_headers :
  call_headers (cfg_headers (config (createModel (sync_closure "secret" no_options) "gpt-4o" None)))
  = Ok {[ "Authorization" := "Bearer secret";
          "Content-Type" := "application/json";
          "ai-resource-group" := "default" ]}.
Proof. vm_compute. reflexivity. Qed.

(** ** The constructor guard *)

(** The functions of [createSAPAIProvider] and [createSAPAIProviderSync]
    refuse [new]. *)
Lemma configured_provider_rejects_new rt c id s :
  call true rt (ConfiguredProvider c) id s
  = (Throw (Error "The SAP AI provider function cannot be called with the new keyword."), []).
Proof. reflexivity. Qed.

Lemma created_provider_is_configured rt options p tr :
  createSAPAIProvider rt options = (Ok p, tr) -> exists c, p = ConfiguredProvider c.
Proof. intros H. apply createSAPAIProvider_inv in H as (? & ? & ? & _ & _ & _ & ->). eauto. Qed.

(** The function of the default instance has no guard: [new.target] is not
    read, so a [new] expression behaves as a plain call. *)
Lemma default_provider_ignores_new rt id s :
  call true rt DefaultProvider id s = call false rt DefaultProvider id s.
Proof. reflexivity. Qed.

(** C8, at the input where the code departs from it: with [SAP_AI_TOKEN]
    set, [new sapai("gpt-4o")] throws nothing and evaluates to a model
    handle, the one a plain call returns. *)
Theorem default_instance_accepts_new :
  call true (Sample.node Sample.granted (Some "env-token")) DefaultProvider "gpt-4o" None
  = (Ok (createModel (sync_closure "env-token" no_options) "gpt-4o" None),
     [EnvRead "SAP_AI_TOKEN"]).
Proof. reflexivity. Qed.

(** ** The default instance *)

Lemma default_createModel_spec rt id s :
  default_createModel rt id s
  = (match process_env rt "SAP_AI_TOKEN" with
     | Some (String a t) => Ok (createModel (sync_closure (String a t) no_options) id s)
     | _ => Throw (Error default_instance_message)
     end,
     [EnvRead "SAP_AI_TOKEN"]).
Proof.
  unfold default_createModel. run.
  now destruct (process_env rt "SAP_AI_TOKEN") as [[|a t]|].
Qed.

(** C9, as written, fails on its last part: [SAP_AI_TOKEN] can be set and
    the call still fail. With the variable set to the empty string,
    [if (!token)] holds and the call throws. *)
Lemma set_token_does_not_always_succeed :
  ~ (forall rt t id s,
       process_env rt "SAP_AI_TOKEN" = Some t ->
       exists m, outcome (call false rt DefaultProvider id s) = Ok m).
Proof.
  intros claim.
  destruct (claim (Sample.node Sample.granted (Some EmptyString)) EmptyString
              "gpt-4o" None eq_refl) as [m Hm].
  discriminate Hm.
Qed.

(** C9, amended: building the default provider handle throws nothing and
    reads nothing, whatever the environment is. Invoking it, directly or
    through [chat], reads [SAP_AI_TOKEN]: when the variable is unset or
    empty the call fails with the error that tells to set [SAP_AI_TOKEN] or
    to use [createSAPAIProvider] with explicit configuration; when it is
    set to a non-empty string the call succeeds, with the handle of a
    synchronous provider for that token. *)
Theorem default_instance rt id s :
  createDefaultSAPAI = (Ok DefaultProvider, [])
  /\ (process_env rt "SAP_AI_TOKEN" = None
      \/ process_env rt "SAP_AI_TOKEN" = Some EmptyString ->
      call false rt DefaultProvider id s
      = (Throw (Error default_instance_message), [EnvRead "SAP_AI_TOKEN"])
      /\ chat rt DefaultProvider id s
         = (Throw (Error default_instance_message), [EnvRead "SAP_AI_TOKEN"]))
  /\ (forall t, process_env rt "SAP_AI_TOKEN" = Some t -> t <> EmptyString ->
      call false rt DefaultProvider id s
      = (Ok (createModel (sync_closure t no_options) id s), [EnvRead "SAP_AI_TOKEN"])
      /\ chat rt DefaultProvider id s
         = (Ok (createModel (sync_closure t no_options) id s), [EnvRead "SAP_AI_TOKEN"]))
  /\ (exists before after,
        default_instance_message
        = before +:+ "Either set SAP_AI_TOKEN or use createSAPAIProvider" +:+ after).
Proof.
  split; [reflexivity|]. split; [|split].
  - intros [H | H]; unfold call, chat; rewrite default_createModel_spec, H; split; reflexivity.
  - intros t H Hne. unfold call, chat. rewrite default_createModel_spec, H.
    destruct t as [|a t]; [congruence|]. split; reflexivity.
  - exists "SAP_AI_TOKEN environment variable is required for default instance. ".
    eexists. reflexivity.
Qed.

Lemma default_instance_witness :
  call false (Sample.node Sample.granted None) DefaultProvider "gpt-4o" None
  = (Throw (Error default_instance_message), [EnvRead "SAP_AI_TOKEN"])
  /\ chat (Sample.node Sample.granted (Some "env-token")) DefaultProvider "gpt-4o" None
     = (Ok (createModel (sync_closure "env-token" no_options) "gpt-4o" None),
        [EnvRead "SAP_AI_TOKEN"]).
Proof.
  split.
  - exact (proj1 (proj1 (proj2 (default_instance (Sample.node Sample.granted None)
                                  "gpt-4o" None))
                    (or_introl eq_refl))).
  - exact (proj2 (proj1 (proj2 (proj2 (default_instance
                                         (Sample.node Sample.granted (Some "env-token"))
                                         "gpt-4o" None)))
                    "env-token" eq_refl ltac:(discriminate))).
Defined.

(** ** Empty credentials *)

Lemma createSAPAIProvider_ext rt o1 o2 :
  parse_service_key rt o1 = parse_service_key rt o2 ->
  (forall k, determine_baseURL o1 k = determine_baseURL o2 k) ->
  (forall k, determine_authentication rt o1 k = determine_authentication rt o2 k) ->
  deploymentId o1 = deploymentId o2 -> resourceGroup o1 = resourceGroup o2 ->
  defaultSettings o1 = defaultSettings o2 -> completionPath o1 = completionPath o2 ->
  headers o1 = headers o2 -> fetch o1 = fetch o2 ->
  createSAPAIProvider rt o1 = createSAPAIProvider rt o2.
Proof.
  intros Hp Hb Ha Hd Hr Hs Hc Hh Hf. rewrite !createSAPAIProvider_steps.
  rewrite Hp. destruct (parse_service_key rt o2) as [k|e]; [|reflexivity].
  rewrite Hb. destruct (determine_baseURL o2 k) as [b|e]; [|reflexivity].
  rewrite Ha. destruct (determine_authentication rt o2 k) as [[tok|e] tr]; [|reflexivity].
  now rewrite Hd, Hr, Hs, Hc, Hh, Hf.
Qed.

(** C10: an empty-string credential is treated as absent. With [token]
    equal to the empty string creation behaves in every respect (result and
    interactions) as without a token: the token is not used, and
    authentication goes to the exchange when a truthy service key was
    parsed and to [SAP_AI_TOKEN] otherwise. With [serviceKey] equal to the
    empty string creation behaves as without a service key: nothing is
    parsed. *)
Theorem empty_credentials_are_absent rt options :
  (token options = Some EmptyString ->
   createSAPAIProvider rt options = createSAPAIProvider rt (with_token None options)
   /\ forall k,
        determine_authentication rt options k
        = if truthy k then getOAuthToken rt k (fetch options)
          else (let! apiKey <- loadApiKey rt "SAP_AI_TOKEN" "SAP AI Core";
                ret (VString apiKey)))
  /\ (serviceKey options = Some (inl EmptyString) ->
      createSAPAIProvider rt options = createSAPAIProvider rt (with_serviceKey None options)
      /\ parse_service_key rt options = Ok VUndefined).
Proof.
  split.
  - intros Ht.
    assert (Hk : forall k,
               determine_authentication rt options k
               = if truthy k then getOAuthToken rt k (fetch options)
                 else (let! apiKey <- loadApiKey rt "SAP_AI_TOKEN" "SAP AI Core";
                       ret (VString apiKey))).
    { intros k. unfold determine_authentication, token_truthy. now rewrite Ht. }
    split; [|exact Hk].
    apply createSAPAIProvider_ext; try reflexivity.
    intros k. now rewrite Hk.
  - intros Hs.
    assert (Hp : parse_service_key rt options = Ok VUndefined).
    { unfold parse_service_key. now rewrite Hs. }
    split; [|exact Hp].
    apply createSAPAIProvider_ext; try reflexivity.
    now rewrite Hp.
Qed.

Lemma empty_credentials_are_absent_witness :
  createSAPAIProvider (Sample.node Sample.granted (Some "env-token")) empty_token_and_key
  = createSAPAIProvider (Sample.node Sample.granted (Some "env-token")) key_only
  /\ createSAPAIProvider (Sample.node Sample.granted (Some "env-token")) token_and_empty_key
     = createSAPAIProvider (Sample.node Sample.granted (Some "env-token"))
         (with_token (Some "secret") no_options).
Proof.
  split.
  - exact (proj1 (proj1 (empty_credentials_are_absent
                           (Sample.node Sample.granted (Some "env-token"))
                           empty_token_and_key) eq_refl)).
  - exact (proj1 (proj2 (empty_credentials_are_absent
                           (Sample.node Sample.granted (Some "env-token"))
                           token_and_empty_key) eq_refl)).
Defined.

(** With an empty token and no service key the token of the environment is
    the one used. *)
Example empty_token_falls_back_to_environment :
  createSAPAIProvider (Sample.node Sample.granted (Some "env-token"))
    (with_token (Some EmptyString) no_options)
  = (Ok (ConfiguredProvider (sync_closure "env-token" no_options)), [EnvRead "SAP_AI_TOKEN"]).
Proof. reflexivity. Qed.

(** * Further properties of the code *)

(** ** The exchange, seen from provider creation *)

(** In the service-key mode creation is the exchange, followed by the
    construction of the provider. *)
Lemma creation_in_key_mode rt options k b :
  (token options = None \/ token options = Some EmptyString) ->
  parse_service_key rt options = Ok k ->
  truthy k = true ->
  determine_baseURL options k = Ok b ->
  createSAPAIProvider rt options
  = match getOAuthToken rt k (fetch options) with
    | (Throw e, tr) => (Throw e, tr)
    | (Ok tok, tr) =>
        (Ok (ConfiguredProvider
               {| cl_defaultSettings := defaultSettings options;
                  cl_completionPath := completionPath options;
                  cl_headers := headers options;
                  cl_fetch := fetch options;
                  cl_baseURL := b;
                  cl_authToken := tok;
                  cl_deploymentId := nullish (deploymentId options) default_deploymentId;
                  cl_resourceGroup := nullish (resourceGroup options) "default" |}),
         tr)
    end.
Proof.
  intros Ht Hk Htr Hb. apply token_truthy_false_spec in Ht.
  rewrite createSAPAIProvider_steps, Hk, Hb.
  now rewrite (determine_authentication_key rt options k Ht Htr).
Qed.

Lemma getOAuthToken_unbuilt rt k f e :
  oauth_request rt k = Throw e -> getOAuthToken rt k f = (Throw e, []).
Proof. intros H. unfold getOAuthToken. now rewrite H. Qed.

Lemma getOAuthToken_rejected rt k f req e :
  oauth_request rt k = Ok req ->
  nullish f (global_fetch rt) req = Throw e ->
  getOAuthToken rt k f = (Throw e, [NetworkCall req]).
Proof. intros Hreq Hr. unfold getOAuthToken. rewrite Hreq. run. now rewrite Hr. Qed.

Lemma typed_key_baseURL options key :
  exists b, determine_baseURL options (service_key_object key) = Ok b.
Proof.
  unfold determine_baseURL, withoutTrailingSlash.
  destruct (baseURL options); simpl; eauto.
Qed.

(** X1: the request of the exchange for a typed service key. No property
    read or conversion can fail on it: the request is a POST to
    [{url}/oauth/token] with the form content type, the header
    [Authorization: Basic] followed by the encoding of
    [clientid:clientsecret], and the body [grant_type=client_credentials];
    [Buffer] encodes when the host has one, [btoa] otherwise. When [btoa]
    is the encoder and throws, creation in the service-key mode fails with
    what it threw, before any network call. *)
Theorem exchange_request_of_typed_key rt (key : SAPAIServiceKey) :
  oauth_request rt (service_key_object key)
  = (try! credentials <-
       match Buffer_base64 rt with
       | Some encode => Ok (encode (clientid key +:+ ":" +:+ clientsecret key))
       | None => btoa rt (clientid key +:+ ":" +:+ clientsecret key)
       end;
     Ok {| req_url := url key +:+ "/oauth/token";
           req_method := "POST";
           req_headers :=
             [ ("Content-Type", "application/x-www-form-urlencoded");
               ("Authorization", "Basic " +:+ credentials) ];
           req_body := "grant_type=client_credentials" |})
  /\ (forall options e,
        (token options = None \/ token options = Some EmptyString) ->
        serviceKey options = Some (inr key) ->
        Buffer_base64 rt = None ->
        btoa rt (clientid key +:+ ":" +:+ clientsecret key) = Throw e ->
        createSAPAIProvider rt options = (Throw e, [])).
Proof.
  assert (Hreq : oauth_request rt (service_key_object key)
                 = (try! credentials <-
                      match Buffer_base64 rt with
                      | Some encode => Ok (encode (clientid key +:+ ":" +:+ clientsecret key))
                      | None => btoa rt (clientid key +:+ ":" +:+ clientsecret key)
                      end;
                    Ok {| req_url := url key +:+ "/oauth/token";
                          req_method := "POST";
                          req_headers :=
                            [ ("Content-Type", "application/x-www-form-urlencoded");
                              ("Authorization", "Basic " +:+ credentials) ];
                          req_body := "grant_type=client_credentials" |})) by reflexivity.
  split; [exact Hreq|].
  intros options e Ht Hkey Hbuf Hbtoa.
  destruct (typed_key_baseURL options key) as [b Hb].
  rewrite (creation_in_key_mode rt options (service_key_object key) b Ht); trivial.
  - rewrite (getOAuthToken_unbuilt rt _ _ e); [reflexivity|].
    rewrite Hreq, Hbuf, Hbtoa. reflexivity.
  - unfold parse_service_key. now rewrite Hkey.
Qed.

Lemma exchange_request_of_typed_key_witness :
  createSAPAIProvider strict_browser key_only
  = (Throw (Foreign "InvalidCharacterError" "Invalid character"), []).
Proof.
  exact (proj2 (exchange_request_of_typed_key strict_browser Sample.key) key_only _
           (or_introl eq_refl) eq_refl eq_refl eq_refl).
Defined.

(** X2: one provider creation interacts with the outside world at most
    once: it does nothing observable, or makes a single network call, or
    reads [SAP_AI_TOKEN] once. In particular nothing is retried, and no
    creation both calls the network and reads the environment. *)
Theorem creation_interacts_at_most_once rt options :
  trace (createSAPAIProvider rt options) = []
  \/ (exists req, trace (createSAPAIProvider rt options) = [NetworkCall req])
  \/ trace (createSAPAIProvider rt options) = [EnvRead "SAP_AI_TOKEN"].
Proof.
  destruct (createSAPAIProvider_trace rt options) as [E | [k [_ E]]]; [now left|].
  rewrite E. clear E.
  destruct (token_truthy options) eqn:Ht.
  - apply token_truthy_spec in Ht as [t [Ht Hne]].
    rewrite (determine_authentication_token rt options k t Ht Hne). now left.
  - destruct (truthy k) eqn:Hk.
    + rewrite determine_authentication_key by assumption.
      destruct (getOAuthToken_trace rt k (fetch options)) as [-> | [req [_ ->]]];
        [now left | right; left; eauto].
    + rewrite determine_authentication_env by assumption. now right; right.
Qed.

(** X3: in the service-key mode, once the request [req] is built, creation
    makes exactly that one network call whatever comes back, and every
    failure of the exchange is the failure of creation: a transport that
    rejects, a refusal whose body cannot be read (the rejection is thrown,
    not the formatted message), a success whose body is not JSON. *)
Theorem exchange_failures_abort_creation rt options k req :
  (token options = None \/ token options = Some EmptyString) ->
  parse_service_key rt options = Ok k ->
  truthy k = true ->
  (exists b, determine_baseURL options k = Ok b) ->
  oauth_request rt k = Ok req ->
  trace (createSAPAIProvider rt options) = [NetworkCall req]
  /\ (forall e,
        nullish (fetch options) (global_fetch rt) req = Throw e ->
        outcome (createSAPAIProvider rt options) = Throw e)
  /\ (forall r e,
        nullish (fetch options) (global_fetch rt) req = Ok r ->
        ok r = false -> text r = Throw e ->
        outcome (createSAPAIProvider rt options) = Throw e)
  /\ (forall r e,
        nullish (fetch options) (global_fetch rt) req = Ok r ->
        ok r = true -> json r = Throw e ->
        outcome (createSAPAIProvider rt options) = Throw e).
Proof.
  intros Ht Hk Htr [b Hb] Hreq.
  rewrite (creation_in_key_mode rt options k b Ht Hk Htr Hb).
  split; [|split; [|split]].
  - destruct (getOAuthToken_trace rt k (fetch options)) as [E | [req' [Hreq' E]]].
    + unfold getOAuthToken in E. rewrite Hreq in E. revert E. run.
      destruct (nullish (fetch options) (global_fetch rt) req) as [r|e]; [|discriminate].
      destruct (ok r); simpl; [destruct (json r) | destruct (text r)]; discriminate.
    + assert (req' = req) as -> by congruence.
      destruct (getOAuthToken rt k (fetch options)) as [[tok|e] tr]; exact E.
  - intros e He. now rewrite (getOAuthToken_rejected rt k _ req e Hreq He).
  - intros r e Hr Hok Htext.
    rewrite (getOAuthToken_answered rt k _ req r Hreq Hr), Hok, Htext. reflexivity.
  - intros r e Hr Hok Hjson.
    rewrite (getOAuthToken_answered rt k _ req r Hreq Hr), Hok, Hjson. reflexivity.
Qed.

Lemma exchange_failures_abort_creation_witness :
  createSAPAIProvider (with_global_fetch unreachable (Sample.node Sample.granted None)) key_only
  = (Throw (Foreign "TypeError" "fetch failed"), [NetworkCall sample_request])
  /\ outcome (createSAPAIProvider (Sample.node refusal_unreadable None) key_only)
     = Throw (Foreign "TypeError" "terminated")
  /\ outcome (createSAPAIProvider (Sample.node grant_not_json None) key_only)
     = Throw SyntaxError.
Proof.
  split; [|split].
  - destruct (exchange_failures_abort_creation
                (with_global_fetch unreachable (Sample.node Sample.granted None)) key_only
                (service_key_object Sample.key) sample_request
                (or_introl eq_refl) eq_refl eq_refl (ex_intro _ _ eq_refl) eq_refl)
      as (once & rejected & _).
    specialize (rejected _ eq_refl).
    destruct (createSAPAIProvider _ key_only) as [o tr].
    simpl in once, rejected. now rewrite once, rejected.
  - exact (proj1 (proj2 (proj2 (exchange_failures_abort_creation
                                  (Sample.node refusal_unreadable None) key_only
                                  (service_key_object Sample.key) sample_request
                                  (or_introl eq_refl) eq_refl eq_refl
                                  (ex_intro _ _ eq_refl) eq_refl)))
             refusal_unreadable _ eq_refl eq_refl eq_refl).
  - exact (proj2 (proj2 (proj2 (exchange_failures_abort_creation
                                  (Sample.node grant_not_json None) key_only
                                  (service_key_object Sample.key) sample_request
                                  (or_introl eq_refl) eq_refl eq_refl
                                  (ex_intro _ _ eq_refl) eq_refl)))
             grant_not_json _ eq_refl eq_refl eq_refl).
Defined.

(** X4: a custom [fetch] replaces the global one altogether: with
    [options.fetch] supplied, provider creation does not depend on the
    global [fetch] of the host. *)
Theorem custom_fetch_replaces_global rt options f g :
  fetch options = Some f ->
  createSAPAIProvider (with_global_fetch g rt) options = createSAPAIProvider rt options.
Proof.
  intros Hf. rewrite !createSAPAIProvider_steps.
  change (parse_service_key (with_global_fetch g rt) options)
    with (parse_service_key rt options).
  destruct (parse_service_key rt options) as [k|e]; [|reflexivity].
  destruct (determine_baseURL options k) as [b|e]; [|reflexivity].
  replace (determine_authentication (with_global_fetch g rt) options k)
    with (determine_authentication rt options k); [reflexivity|].
  unfold determine_authentication, getOAuthToken. now rewrite Hf.
Qed.

Lemma custom_fetch_replaces_global_witness :
  createSAPAIProvider (with_global_fetch unreachable (Sample.node Sample.granted None))
    (with_fetch (Some (Sample.server Sample.granted)) key_only)
  = createSAPAIProvider (Sample.node Sample.granted None)
      (with_fetch (Some (Sample.server Sample.granted)) key_only).
Proof.
  exact (custom_fetch_replaces_global (Sample.node Sample.granted None)
           (with_fetch (Some (Sample.server Sample.granted)) key_only)
           (Sample.server Sample.granted) unreachable eq_refl).
Defined.

(** X5: the token document is not validated. When the exchange succeeds
    with a JSON object that has no [access_token], creation succeeds all the
    same, the token of the provider is [undefined], and its handles send
    [Authorization: Bearer undefined] (unless a custom header replaces it).
    When the body is the JSON value [null], reading [access_token] throws a
    [TypeError] and creation fails, after the network call. *)
Theorem token_document_is_not_validated rt options k req r :
  (token options = None \/ token options = Some EmptyString) ->
  parse_service_key rt options = Ok k ->
  truthy k = true ->
  (exists b, determine_baseURL options k = Ok b) ->
  oauth_request rt k = Ok req ->
  nullish (fetch options) (global_fetch rt) req = Ok r ->
  ok r = true ->
  (forall props,
     json r = Ok (VObject props) -> own_property props "access_token" = None ->
     exists c,
       createSAPAIProvider rt options = (Ok (ConfiguredProvider c), [NetworkCall req])
       /\ cl_authToken c = VUndefined
       /\ forall id s,
            nullish (headers options) ∅ !! "Authorization" = None ->
            exists hs : gmap string string,
              call_headers (cfg_headers (config (createModel c id s))) = Ok hs
              /\ hs !! "Authorization" = Some "Bearer undefined")
  /\ (json r = Ok VNull ->
      createSAPAIProvider rt options = (Throw TypeError, [NetworkCall req])).
Proof.
  intros Ht Hk Htr [b Hb] Hreq Hr Hok.
  rewrite (creation_in_key_mode rt options k b Ht Hk Htr Hb),
    (getOAuthToken_answered rt k _ req r Hreq Hr), Hok.
  split.
  - intros props Hjson Hnone. rewrite Hjson. simpl. rewrite Hnone. simpl.
    eexists. split; [reflexivity|]. split; [reflexivity|].
    intros id s Hcustom. unfold call_headers, createModel. simpl.
    eexists. split; [reflexivity|]. rewrite union_lookup, Hcustom. reflexivity.
  - intros Hjson. now rewrite Hjson.
Qed.

Lemma token_document_is_not_validated_witness :
  (exists c,
     createSAPAIProvider (Sample.node grant_without_token None) key_only
     = (Ok (ConfiguredProvider c), [NetworkCall sample_request])
     /\ cl_authToken c = VUndefined)
  /\ createSAPAIProvider (Sample.node grant_null None) key_only
     = (Throw TypeError, [NetworkCall sample_request]).
Proof.
  split.
  - destruct (proj1 (token_document_is_not_validated
                       (Sample.node grant_without_token None) key_only
                       (service_key_object Sample.key) sample_request grant_without_token
                       (or_introl eq_refl) eq_refl eq_refl (ex_intro _ _ eq_refl)
                       eq_refl eq_refl eq_refl)
                _ eq_refl eq_refl) as (c & created & undefined & _).
    exists c. now split.
  - exact (proj2 (token_document_is_not_validated
                    (Sample.node grant_null None) key_only
                    (service_key_object Sample.key) sample_request grant_null
                    (or_introl eq_refl) eq_refl eq_refl (ex_intro _ _ eq_refl)
                    eq_refl eq_refl eq_refl)
             eq_refl).
Defined.

(** ** Service keys of every shape *)

(** Only the truthiness of the parsed key matters to a creation that finds
    it falsy. *)
Lemma falsy_key_steps rt options k :
  truthy k = false ->
  determine_baseURL options k = determine_baseURL options VUndefined
  /\ determine_authentication rt options k = determine_authentication rt options VUndefined.
Proof.
  intros Hk. unfold determine_baseURL, determine_authentication. now rewrite Hk.
Qed.

(** X6: a service key string that parses to a falsy JSON value ([null],
    [false], [0], the empty string) is treated as no service key at all:
    creation behaves, in result and interactions, as without the
    property. *)
Theorem falsy_service_key_is_absent rt options s v :
  serviceKey options = Some (inl s) ->
  JSON_parse rt s = Some v ->
  truthy v = false ->
  createSAPAIProvider rt options = createSAPAIProvider rt (with_serviceKey None options).
Proof.
  intros Hs Hparse Hv. rewrite !createSAPAIProvider_steps.
  assert (Hk : exists k, parse_service_key rt options = Ok k /\ truthy k = false).
  { unfold parse_service_key. rewrite Hs, Hparse. destruct (string_truthy s); eauto. }
  destruct Hk as [k [-> Hk]].
  change (parse_service_key rt (with_serviceKey None options)) with (@Ok JSValue VUndefined).
  destruct (falsy_key_steps rt options k Hk) as [-> ->].
  reflexivity.
Qed.

Lemma falsy_service_key_is_absent_witness :
  createSAPAIProvider (Sample.node Sample.granted (Some "env-token"))
    (with_serviceKey (Some (inl "null")) no_options)
  = (Ok (ConfiguredProvider (sync_closure "env-token" no_options)), [EnvRead "SAP_AI_TOKEN"]).
Proof.
  exact (falsy_service_key_is_absent (Sample.node Sample.granted (Some "env-token"))
           (with_serviceKey (Some (inl "null")) no_options) "null" VNull
           eq_refl eq_refl eq_refl).
Defined.

(** X7: the service key may be given as its JSON text or as the object: a
    non-empty text that parses to the object of a typed key creates what
    the typed key creates, with the same interactions. *)
Theorem service_key_text_and_object_agree rt options s key :
  serviceKey options = Some (inl s) ->
  s <> EmptyString ->
  JSON_parse rt s = Some (service_key_object key) ->
  createSAPAIProvider rt options
  = createSAPAIProvider rt (with_serviceKey (Some (inr key)) options).
Proof.
  intros Hs Hne Hparse. apply createSAPAIProvider_ext; try reflexivity.
  unfold parse_service_key. rewrite Hs. simpl.
  apply string_truthy_spec in Hne. now rewrite Hne, Hparse.
Qed.

Lemma service_key_text_and_object_agree_witness :
  createSAPAIProvider (node_reading_key Sample.granted None)
    (with_serviceKey (Some (inl sample_key_text)) no_options)
  = createSAPAIProvider (node_reading_key Sample.granted None) key_only.
Proof.
  exact (service_key_text_and_object_agree (node_reading_key Sample.granted None)
           (with_serviceKey (Some (inl sample_key_text)) no_options)
           sample_key_text Sample.key eq_refl ltac:(discriminate) eq_refl).
Defined.

(** X8: a parsed service key that is truthy but has no [serviceurls] (or a
    [null] one) makes creation throw a [TypeError] when no [baseURL] is
    supplied: the base URL is resolved first, so nothing has happened yet
    and not even a valid token helps. With a [baseURL] and a non-empty token
    the same key is never looked into, and creation succeeds. *)
Theorem service_key_without_urls rt options k :
  parse_service_key rt options = Ok k ->
  truthy k = true ->
  (get k "serviceurls" = Ok VUndefined \/ get k "serviceurls" = Ok VNull) ->
  (baseURL options = None ->
   createSAPAIProvider rt options = (Throw TypeError, []))
  /\ (forall u t,
        baseURL options = Some u -> token options = Some t -> t <> EmptyString ->
        exists c,
          createSAPAIProvider rt options = (Ok (ConfiguredProvider c), [])
          /\ cl_baseURL c = strip_final_slash u
          /\ cl_authToken c = VString t).
Proof.
  intros Hk Htr Hurls. rewrite createSAPAIProvider_steps, Hk. split.
  - intros Hu. unfold determine_baseURL, withoutTrailingSlash. rewrite Htr, Hu. simpl.
    now destruct Hurls as [-> | ->].
  - intros u t Hu Ht Hne.
    rewrite (determine_baseURL_explicit options k u Hu),
      (determine_authentication_token rt options k t Ht Hne).
    eexists. repeat split.
Qed.

Lemma service_key_without_urls_witness :
  createSAPAIProvider (Sample.node Sample.granted None)
    (with_token (Some "secret") (with_serviceKey (Some (inl "[]")) no_options))
  = (Throw TypeError, []).
Proof.
  exact (proj1 (service_key_without_urls (Sample.node Sample.granted None)
                  (with_token (Some "secret") (with_serviceKey (Some (inl "[]")) no_options))
                  (VArray []) eq_refl eq_refl (or_introl eq_refl))
           eq_refl).
Defined.

(** ** The three ways to a provider *)

(** X9: with a non-empty token, [createSAPAIProvider] returns the very
    provider [createSAPAIProviderSync] builds from that token, without any
    interaction, as soon as the base URL does not come from a service key:
    no truthy service key was parsed, or a [baseURL] is supplied. *)
Theorem async_agrees_with_sync rt options t k :
  token options = Some t ->
  t <> EmptyString ->
  parse_service_key rt options = Ok k ->
  (truthy k = false \/ is_Some (baseURL options)) ->
  createSAPAIProvider rt options = (Ok (createSAPAIProviderSync t options), []).
Proof.
  intros Ht Hne Hk Hbase. rewrite createSAPAIProvider_steps, Hk.
  rewrite (determine_authentication_token rt options k t Ht Hne).
  assert (Hb : determine_baseURL options k
               = Ok (nullish (withoutTrailingSlash (baseURL options)) default_baseURL)).
  { unfold determine_baseURL. destruct Hbase as [-> | [u Hu]]; [reflexivity|].
    rewrite Hu. simpl. now destruct (truthy k). }
  now rewrite Hb.
Qed.

Lemma async_agrees_with_sync_witness :
  createSAPAIProvider (Sample.node Sample.granted None)
    (with_baseURL (Some "https://proxy.example/") token_and_key)
  = (Ok (createSAPAIProviderSync "secret"
           (with_baseURL (Some "https://proxy.example/") token_and_key)), []).
Proof.
  exact (async_agrees_with_sync (Sample.node Sample.granted None)
           (with_baseURL (Some "https://proxy.example/") token_and_key)
           "secret" (service_key_object Sample.key)
           eq_refl ltac:(discriminate) eq_refl (or_intror (ex_intro _ _ eq_refl))).
Defined.

Lemma creation_from_environment rt options k :
  (token options = None \/ token options = Some EmptyString) ->
  parse_service_key rt options = Ok k ->
  truthy k = false ->
  createSAPAIProvider rt options
  = (match process_env rt "SAP_AI_TOKEN" with
     | Some apiKey => Ok (createSAPAIProviderSync apiKey options)
     | None =>
         Throw (LoadAPIKeyError
                  ("SAP AI Core API key is missing. Pass it using the 'apiKey' parameter or the "
                   +:+ "SAP_AI_TOKEN environment variable."))
     end,
     [EnvRead "SAP_AI_TOKEN"]).
Proof.
  intros Ht Hk Htr. apply token_truthy_false_spec in Ht.
  rewrite createSAPAIProvider_steps, Hk.
  rewrite (determine_authentication_env rt options k Ht Htr).
  unfold determine_baseURL. rewrite Htr.
  now destruct (process_env rt "SAP_AI_TOKEN").
Qed.

(** X10: the environment fallback. Without a usable token and without a
    truthy service key, creation reads [SAP_AI_TOKEN] once and returns the
    provider [createSAPAIProviderSync] builds from its value, whatever the
    value is, the empty string included; when the variable is not set it
    fails with the [LoadAPIKeyError] of [loadApiKey]. *)
Theorem environment_fallback rt options k :
  (token options = None \/ token options = Some EmptyString) ->
  parse_service_key rt options = Ok k ->
  truthy k = false ->
  (forall apiKey,
     process_env rt "SAP_AI_TOKEN" = Some apiKey ->
     createSAPAIProvider rt options
     = (Ok (createSAPAIProviderSync apiKey options), [EnvRead "SAP_AI_TOKEN"]))
  /\ (process_env rt "SAP_AI_TOKEN" = None ->
      exists message,
        createSAPAIProvider rt options
        = (Throw (LoadAPIKeyError message), [EnvRead "SAP_AI_TOKEN"])).
Proof.
  intros Ht Hk Htr. rewrite (creation_from_environment rt options k Ht Hk Htr). split.
  - intros apiKey ->. reflexivity.
  - intros ->. eexists. reflexivity.
Qed.

Lemma environment_fallback_witness :
  createSAPAIProvider (Sample.node Sample.granted (Some EmptyString)) no_options
  = (Ok (createSAPAIProviderSync EmptyString no_options), [EnvRead "SAP_AI_TOKEN"]).
Proof.
  exact (proj1 (environment_fallback (Sample.node Sample.granted (Some EmptyString))
                  no_options VUndefined (or_introl eq_refl) eq_refl eq_refl)
           EmptyString eq_refl).
Defined.

(** X11: the default instance against [await createSAPAIProvider()]. With
    [SAP_AI_TOKEN] set to a non-empty string both give the same model
    handle for the same arguments. With [SAP_AI_TOKEN] set to the empty
    string they part: [createSAPAIProvider()] returns a provider (with the
    empty token), the default instance throws at the call. *)
Theorem lazy_default_against_created rt id s :
  (forall t, process_env rt "SAP_AI_TOKEN" = Some t -> t <> EmptyString ->
     exists p,
       createSAPAIProvider rt no_options = (Ok p, [EnvRead "SAP_AI_TOKEN"])
       /\ outcome (call false rt p id s) = outcome (call false rt DefaultProvider id s)
       /\ outcome (chat rt p id s) = outcome (chat rt DefaultProvider id s))
  /\ (process_env rt "SAP_AI_TOKEN" = Some EmptyString ->
      (exists p m,
         createSAPAIProvider rt no_options = (Ok p, [EnvRead "SAP_AI_TOKEN"])
         /\ outcome (call false rt p id s) = Ok m)
      /\ outcome (call false rt DefaultProvider id s)
         = Throw (Error default_instance_message)).
Proof.
  assert (Hcreate : forall t, process_env rt "SAP_AI_TOKEN" = Some t ->
            createSAPAIProvider rt no_options
            = (Ok (createSAPAIProviderSync t no_options), [EnvRead "SAP_AI_TOKEN"])).
  { intros t Ht.
    rewrite (creation_from_environment rt no_options VUndefined
               (or_introl eq_refl) eq_refl eq_refl).
    now rewrite Ht. }
  split.
  - intros t Ht Hne. eexists. split; [exact (Hcreate t Ht)|].
    unfold call, chat. rewrite default_createModel_spec, Ht.
    destruct t as [|a t]; [congruence|]. split; reflexivity.
  - intros Ht. split.
    + eexists _, _. split; [exact (Hcreate _ Ht)|]. reflexivity.
    + unfold call. now rewrite default_createModel_spec, Ht.
Qed.

Lemma lazy_default_against_created_witness :
  exists p,
    createSAPAIProvider (Sample.node Sample.granted (Some "env-token")) no_options
    = (Ok p, [EnvRead "SAP_AI_TOKEN"])
    /\ outcome (call false (Sample.node Sample.granted (Some "env-token")) p "gpt-4o" None)
       = outcome (call false (Sample.node Sample.granted (Some "env-token"))
                    DefaultProvider "gpt-4o" None).
Proof.
  destruct (proj1 (lazy_default_against_created
                     (Sample.node Sample.granted (Some "env-token")) "gpt-4o" None)
              "env-token" eq_refl ltac:(discriminate)) as (p & created & same & _).
  exists p. now split.
Defined.

(** ** Settings and handles *)

Lemma union_assoc {V} (m1 m2 m3 : gmap string V) : m1 ∪ (m2 ∪ m3) = (m1 ∪ m2) ∪ m3.
Proof.
  apply map_eq. intros key. rewrite !union_lookup. now destruct (m1 !! key).
Qed.

(** X12: the settings merge is associative: settings merged in layers
    (defaults, then a first override, then a second) are the same whether
    the two overrides are merged first or the defaults and the first one,
    whatever keys the three bags share. *)
Theorem layered_merge_assoc (a b c : SAPAISettings) :
  mergeSettings (Some (mergeSettings (Some a) b)) c
  = mergeSettings (Some a) (mergeSettings (Some b) c).
Proof. unfold mergeSettings. simpl. now rewrite !union_assoc. Qed.

(** X13: the ends of the merge. A handle made without call settings
    carries the provider-level defaults; a handle made by a provider
    without defaults carries the call settings; in both cases with a
    [modelParams] object, an empty one when none was given. A provider
    without defaults called without settings gives [{ modelParams: {} }]. *)
Theorem settings_of_a_handle (c : Closure) id :
  (forall d, cl_defaultSettings c = Some d ->
     settings (createModel c id None)
     = {| fields := fields d; modelParams := Some (nullish (modelParams d) ∅) |})
  /\ (forall s, cl_defaultSettings c = None ->
        settings (createModel c id (Some s))
        = {| fields := fields s; modelParams := Some (nullish (modelParams s) ∅) |})
  /\ (cl_defaultSettings c = None ->
      settings (createModel c id None) = {| fields := ∅; modelParams := Some ∅ |}).
Proof.
  split; [|split].
  - intros d Hd. rewrite createModel_merges, Hd. unfold mergeSettings. simpl.
    now rewrite !map_empty_union.
  - intros s Hd. rewrite createModel_merges, Hd. apply mergeSettings_no_defaults.
  - intros Hd. rewrite createModel_merges, Hd. reflexivity.
Qed.

Lemma settings_of_a_handle_witness :
  settings (createModel (sync_closure "secret" (with_baseURL None no_options)) "gpt-4o" None)
  = {| fields := ∅; modelParams := Some ∅ |}.
Proof.
  exact (proj2 (proj2 (settings_of_a_handle
                         (sync_closure "secret" (with_baseURL None no_options)) "gpt-4o"))
           eq_refl).
Defined.

(** X14: what a created provider hands to the chat model. Called as a
    function or through [chat], with any arguments, it succeeds without
    touching the outside world, and both ways give the same handle: it has
    the model id asked for, the provider name [sap-ai], the [fetch] of the
    options unchanged, the settings merged over the defaults of the
    options, and a header function over the token resolved at creation,
    the custom headers of the options and their resource group, [default]
    when none is given. *)
Theorem created_provider_handles rt options p tr :
  createSAPAIProvider rt options = (Ok p, tr) ->
  exists c,
    p = ConfiguredProvider c
    /\ forall rt' id s,
         exists m,
           call false rt' p id s = (Ok m, [])
           /\ chat rt' p id s = (Ok m, [])
           /\ modelId m = id
           /\ provider (config m) = "sap-ai"
           /\ cfg_fetch (config m) = fetch options
           /\ settings m = mergeSettings (defaultSettings options) (nullish s empty_settings)
           /\ cfg_headers (config m)
              = {| hf_authToken := cl_authToken c;
                   hf_resourceGroup := nullish (resourceGroup options) "default";
                   hf_headers := headers options |}.
Proof.
  intros H.
  apply createSAPAIProvider_inv in H as (k & b & tok & _ & _ & _ & ->).
  eexists. split; [reflexivity|].
  intros rt' id s. eexists. repeat split.
Qed.

Lemma created_provider_handles_witness :
  exists m,
    call false (Sample.node Sample.refused None)
      (ConfiguredProvider
         {| cl_defaultSettings := None; cl_completionPath := None;
            cl_headers := None; cl_fetch := None;
            cl_baseURL := "https://api.example/v2";
            cl_authToken := VString "oauth-token";
            cl_deploymentId := "d65d81e7c077e583";
            cl_resourceGroup := "default" |})
      "gpt-4o" None
    = (Ok m, [])
    /\ hf_resourceGroup (cfg_headers (config m)) = "default".
Proof.
  destruct (created_provider_handles (Sample.node Sample.granted None) key_only _ _ eq_refl)
    as (c & is_c & handles).
  destruct (handles (Sample.node Sample.refused None) "gpt-4o" None)
    as (m & called & _ & _ & _ & _ & _ & hdrs).
  exists m. split; [exact called|]. now rewrite hdrs.
Defined.

(** X15: the default instance takes no configuration. Every handle it
    returns, whatever the arguments, targets the default production
    endpoint with the default deployment, carries the call settings merged
    over no defaults, and sends exactly the three generated headers, with
    the token read from [SAP_AI_TOKEN] at that call and the resource group
    [default]. *)
Theorem default_instance_handles rt id s m :
  outcome (call false rt DefaultProvider id s) = Ok m ->
  exists t,
    process_env rt "SAP_AI_TOKEN" = Some t
    /\ t <> EmptyString
    /\ modelId m = id
    /\ cfg_baseURL (config m)
       = "https://api.ai.prod.eu-central-1.aws.ml.hana.ondemand.com/v2"
         +:+ "/inference/deployments/d65d81e7c077e583/v2/completion"
    /\ cfg_fetch (config m) = None
    /\ settings m = mergeSettings None (nullish s empty_settings)
    /\ call_headers (cfg_headers (config m))
       = Ok {[ "Authorization" := "Bearer " +:+ t;
               "Content-Type" := "application/json";
               "ai-resource-group" := "default" ]}.
Proof.
  unfold call. rewrite default_createModel_spec.
  destruct (process_env rt "SAP_AI_TOKEN") as [[|a t]|]; try discriminate.
  intros [= <-]. exists (String a t). repeat split. discriminate.
Qed.

Lemma default_instance_handles_witness :
  exists t, process_env (Sample.node Sample.granted (Some "env-token")) "SAP_AI_TOKEN" = Some t
            /\ t <> EmptyString.
Proof.
  destruct (default_instance_handles (Sample.node Sample.granted (Some "env-token"))
              "gpt-4o" None _ eq_refl) as (t & set & filled & _).
  exists t. now split.
Defined.

(** X16: the providers of the two creation functions refuse to be
    constructed. For every provider [createSAPAIProvider] returns and every
    provider of [createSAPAIProviderSync], a [new] expression throws the
    error "The SAP AI provider function cannot be called with the new
    keyword." whatever the arguments, and builds nothing. *)
Theorem created_providers_reject_new rt options p tr :
  createSAPAIProvider rt options = (Ok p, tr) ->
  forall rt' id s,
    call true rt' p id s
    = (Throw (Error "The SAP AI provider function cannot be called with the new keyword."), [])
    /\ forall t o,
         call true rt' (createSAPAIProviderSync t o) id s
         = (Throw (Error "The SAP AI provider function cannot be called with the new keyword."),
            []).
Proof.
  intros H rt' id s.
  apply created_provider_is_configured in H as [c ->].
  split; reflexivity.
Qed.

Lemma created_providers_reject_new_witness :
  call true (Sample.node Sample.granted None)
    (ConfiguredProvider
       {| cl_defaultSettings := None; cl_completionPath := None;
          cl_headers := None; cl_fetch := None;
          cl_baseURL := "https://api.example/v2";
          cl_authToken := VString "secret";
          cl_deploymentId := "d65d81e7c077e583";
          cl_resourceGroup := "default" |})
    "gpt-4o" None
  = (Throw (Error "The SAP AI provider function cannot be called with the new keyword."), []).
Proof.
  exact (proj1 (created_providers_reject_new (Sample.node Sample.granted None) token_and_key
                  _ [] eq_refl (Sample.node Sample.granted None) "gpt-4o" None)).
Defined.
